(** * TinyLink: a shallow embedding of [server.js]

    The development follows the layout of the server: JavaScript string
    helpers, the URL constructor used by [isValidUrl], the [links] table
    and the SQL statements the routes send to it, the route handlers, and
    then the properties of the handlers. *)

From Stdlib Require Import List String Ascii Bool Arith ZArith QArith Qround Lia.
From Stdlib Require Import Permutation Sorted.
Import ListNotations.

(** ** JavaScript strings

    A string is a sequence of code units; the model keeps the code units
    below 256, which is the range of [ascii]. *)

Module Js.

Local Open Scope char_scope.

Definition in_range (lo hi c : ascii) : bool :=
  (nat_of_ascii lo <=? nat_of_ascii c)%nat && (nat_of_ascii c <=? nat_of_ascii hi)%nat.

Definition is_upper (c : ascii) : bool := in_range "A" "Z" c.
Definition is_lower (c : ascii) : bool := in_range "a" "z" c.
Definition is_digit (c : ascii) : bool := in_range "0" "9" c.
Definition is_alpha (c : ascii) : bool := is_upper c || is_lower c.
Definition is_alnum (c : ascii) : bool := is_alpha c || is_digit c.

(** ASCII lower-casing: [A-Z] moves to [a-z], every other unit stays. *)
Definition to_lower (c : ascii) : ascii :=
  if is_upper c then ascii_of_nat (nat_of_ascii c + 32) else c.

Local Open Scope string_scope.

Fixpoint lower (s : string) : string :=
  match s with
  | EmptyString => EmptyString
  | String c s' => String (to_lower c) (lower s')
  end.

Fixpoint forallb (p : ascii -> bool) (s : string) : bool :=
  match s with
  | EmptyString => true
  | String c s' => p c && forallb p s'
  end.

Fixpoint existsb (p : ascii -> bool) (s : string) : bool :=
  match s with
  | EmptyString => false
  | String c s' => p c || existsb p s'
  end.

(** [!s] for a string: only the empty string is falsy. *)
Definition is_empty (s : string) : bool :=
  match s with EmptyString => true | _ => false end.

(** [!v] for a body field that is either absent ([undefined]) or a string. *)
Definition falsy (v : option string) : bool :=
  match v with None => true | Some s => is_empty s end.

(** [s[i]]: the unit at index [i], [undefined] outside the string. *)
Definition index (s : string) (i : Z) : option ascii :=
  if (i <? 0)%Z then None else String.get (Z.to_nat i) s.

(** [out += v] where [v] is a unit or [undefined]. *)
Definition append_unit (out : string) (v : option ascii) : string :=
  match v with
  | Some c => out ++ String c EmptyString
  | None => out ++ "undefined"
  end.

End Js.

(** ** The URL constructor

    [isValidUrl] calls [new URL(str)] with no base and reports whether it
    threw.  [new URL] is the platform's URL parser (the WHATWG basic URL
    parser); it throws exactly when the parser returns failure.  The
    parser is a state machine over the input; each state below is one
    state of that machine, taking the input from the pointer on.  Where
    the machine moves the pointer back by one, the next state receives
    the same input again; where it rewinds over the buffer, the next
    state receives the input from the place the buffer started.

    Parsing a host name (IPv4, IPv6 and internationalised domain names)
    is left to [host_parser], a parameter of the machine.  The record
    keeps the components that decide acceptance (scheme, host and port):
    the path, query and fragment states consume the rest of the input
    and never fail. *)

Module Url.

Local Open Scope char_scope.

Record URLRecord := mkURL {
  scheme : string;
  host : option string;
  port : option Z
}.

Definition set_host (u : URLRecord) (h : string) : URLRecord :=
  mkURL (scheme u) (Some h) (port u).

Definition set_port (u : URLRecord) (p : option Z) : URLRecord :=
  mkURL (scheme u) (host u) p.

Definition unit_string (c : ascii) : string := String c EmptyString.

(** A control character or space: code points U+0000 to U+0020. *)
Definition is_c0_or_space (c : ascii) : bool := (nat_of_ascii c <=? 32)%nat.

(** ASCII tab or newline: U+0009, U+000A, U+000D. *)
Definition is_tab_or_newline (c : ascii) : bool :=
  let n := nat_of_ascii c in ((n =? 9) || (n =? 10) || (n =? 13))%nat.

Fixpoint strip_leading (s : string) : string :=
  match s with
  | String c s' => if is_c0_or_space c then strip_leading s' else s
  | EmptyString => EmptyString
  end.

Fixpoint strip_trailing (s : string) : string :=
  match s with
  | String c s' =>
      match strip_trailing s' with
      | EmptyString => if is_c0_or_space c then EmptyString else unit_string c
      | t => String c t
      end
  | EmptyString => EmptyString
  end.

Fixpoint remove_tab_newline (s : string) : string :=
  match s with
  | String c s' =>
      if is_tab_or_newline c then remove_tab_newline s'
      else String c (remove_tab_newline s')
  | EmptyString => EmptyString
  end.

Definition preprocess (s : string) : string :=
  remove_tab_newline (strip_trailing (strip_leading s)).

(** The special schemes and their default ports. *)
Definition default_port (sch : string) : option (option Z) :=
  if String.eqb sch "ftp" then Some (Some 21%Z)
  else if String.eqb sch "file" then Some None
  else if String.eqb sch "http" then Some (Some 80%Z)
  else if String.eqb sch "https" then Some (Some 443%Z)
  else if String.eqb sch "ws" then Some (Some 80%Z)
  else if String.eqb sch "wss" then Some (Some 443%Z)
  else None.

Definition is_special (sch : string) : bool :=
  match default_port sch with Some _ => true | None => false end.

Definition is_scheme_unit (c : ascii) : bool :=
  Js.is_alnum c || Ascii.eqb c "+" || Ascii.eqb c "-" || Ascii.eqb c ".".

Definition is_slash (c : ascii) : bool := Ascii.eqb c "/" || Ascii.eqb c "\".

(** The code points that end the authority, host and port states (the end
    of the input ends them too). *)
Definition ends_authority (special : bool) (c : ascii) : bool :=
  Ascii.eqb c "/" || Ascii.eqb c "?" || Ascii.eqb c "#" || (special && Ascii.eqb c "\").

Fixpoint decimal (acc : Z) (s : string) : Z :=
  match s with
  | String c s' => decimal (10 * acc + (Z.of_nat (nat_of_ascii c) - 48))%Z s'
  | EmptyString => acc
  end.

(** A Windows drive letter: an ASCII letter followed by [:] or [|]. *)
Definition is_windows_drive_letter (s : string) : bool :=
  match s with
  | String a (String b EmptyString) => Js.is_alpha a && (Ascii.eqb b ":" || Ascii.eqb b "|")
  | _ => false
  end.

Section Parser.

(** [host_parser input isOpaque]: the host parser, failure as [None]. *)
Variable host_parser : string -> bool -> option string.

(** Path start, path, opaque path, query and fragment states. *)
Definition path_start_state (u : URLRecord) (input : string) : option URLRecord := Some u.
Definition path_state (u : URLRecord) (input : string) : option URLRecord := Some u.
Definition opaque_path_state (u : URLRecord) (input : string) : option URLRecord := Some u.

Definition port_done (u : URLRecord) (buffer input : string) : option URLRecord :=
  if Js.is_empty buffer then path_start_state u input
  else
    let p := decimal 0 buffer in
    if (65535 <? p)%Z then None
    else
      let p' := match default_port (scheme u) with
                | Some (Some d) => if (p =? d)%Z then None else Some p
                | _ => Some p
                end in
      path_start_state (set_port u p') input.

Fixpoint port_state (special : bool) (u : URLRecord) (buffer input : string)
  : option URLRecord :=
  match input with
  | String c rest =>
      if Js.is_digit c then port_state special u (buffer ++ unit_string c) rest
      else if ends_authority special c then port_done u buffer input
      else None
  | EmptyString => port_done u buffer input
  end.

Definition host_done (special : bool) (u : URLRecord) (buffer input : string)
  : option URLRecord :=
  if special && Js.is_empty buffer then None
  else
    match host_parser buffer (negb special) with
    | None => None
    | Some h => path_start_state (set_host u h) input
    end.

Fixpoint host_state (special : bool) (u : URLRecord) (buffer : string)
  (insideBrackets : bool) (input : string) : option URLRecord :=
  match input with
  | String c rest =>
      if Ascii.eqb c ":" && negb insideBrackets then
        if Js.is_empty buffer then None
        else
          match host_parser buffer (negb special) with
          | None => None
          | Some h => port_state special (set_host u h) EmptyString rest
          end
      else if ends_authority special c then host_done special u buffer input
      else
        let inside :=
          if Ascii.eqb c "[" then true
          else if Ascii.eqb c "]" then false
          else insideBrackets in
        host_state special u (buffer ++ unit_string c) inside rest
  | EmptyString => host_done special u buffer input
  end.

Definition authority_done (special : bool) (u : URLRecord) (atSignSeen : bool)
  (buffer start : string) : option URLRecord :=
  if atSignSeen && Js.is_empty buffer then None
  else host_state special u EmptyString false start.

(** [start] is the input from the place the buffer started: the host state
    scans it again once the authority has been delimited. *)
Fixpoint authority_state (special : bool) (u : URLRecord) (atSignSeen : bool)
  (buffer start input : string) : option URLRecord :=
  match input with
  | String c rest =>
      if Ascii.eqb c "@" then authority_state special u true EmptyString rest rest
      else if ends_authority special c then authority_done special u atSignSeen buffer start
      else authority_state special u atSignSeen (buffer ++ unit_string c) start rest
  | EmptyString => authority_done special u atSignSeen buffer start
  end.

Definition path_or_authority_state (u : URLRecord) (input : string) : option URLRecord :=
  match input with
  | String c rest =>
      if Ascii.eqb c "/" then authority_state false u false EmptyString rest rest
      else path_state u input
  | EmptyString => path_state u input
  end.

Fixpoint special_authority_ignore_slashes_state (u : URLRecord) (input : string)
  : option URLRecord :=
  match input with
  | String c rest =>
      if is_slash c then special_authority_ignore_slashes_state u rest
      else authority_state true u false EmptyString input input
  | EmptyString => authority_state true u false EmptyString input input
  end.

Definition special_authority_slashes_state (u : URLRecord) (input : string)
  : option URLRecord :=
  match input with
  | String c (String d rest) =>
      if Ascii.eqb c "/" && Ascii.eqb d "/"
      then special_authority_ignore_slashes_state u rest
      else special_authority_ignore_slashes_state u input
  | _ => special_authority_ignore_slashes_state u input
  end.

Definition file_host_done (u : URLRecord) (buffer input : string) : option URLRecord :=
  if is_windows_drive_letter buffer then path_state u input
  else if Js.is_empty buffer then path_start_state (set_host u EmptyString) input
  else
    match host_parser buffer false with
    | None => None
    | Some h =>
        let h' := if String.eqb h "localhost" then EmptyString else h in
        path_start_state (set_host u h') input
    end.

Fixpoint file_host_state (u : URLRecord) (buffer input : string) : option URLRecord :=
  match input with
  | String c rest =>
      if is_slash c || Ascii.eqb c "?" || Ascii.eqb c "#" then file_host_done u buffer input
      else file_host_state u (buffer ++ unit_string c) rest
  | EmptyString => file_host_done u buffer input
  end.

Definition file_slash_state (u : URLRecord) (input : string) : option URLRecord :=
  match input with
  | String c rest =>
      if is_slash c then file_host_state u EmptyString rest else path_state u input
  | EmptyString => path_state u input
  end.

Definition file_state (u : URLRecord) (input : string) : option URLRecord :=
  let u' := set_host u EmptyString in
  match input with
  | String c rest =>
      if is_slash c then file_slash_state u' rest else path_state u' input
  | EmptyString => path_state u' input
  end.

(** There is no base URL: the no scheme state returns failure. *)
Definition no_scheme_state (input : string) : option URLRecord := None.

(** The scheme state once it has read the colon. *)
Definition scheme_done (buffer rest : string) : option URLRecord :=
  let u := mkURL buffer None None in
  if String.eqb buffer "file" then file_state u rest
  else if is_special buffer then special_authority_slashes_state u rest
  else
    match rest with
    | String c rest' =>
        if Ascii.eqb c "/" then path_or_authority_state u rest'
        else opaque_path_state u rest
    | EmptyString => opaque_path_state u rest
    end.

Fixpoint scheme_state (buffer input : string) : option URLRecord :=
  match input with
  | String c rest =>
      if is_scheme_unit c then scheme_state (buffer ++ unit_string (Js.to_lower c)) rest
      else if Ascii.eqb c ":" then scheme_done buffer rest
      else no_scheme_state input
  | EmptyString => no_scheme_state input
  end.

Definition scheme_start_state (input : string) : option URLRecord :=
  match input with
  | String c rest =>
      if Js.is_alpha c then scheme_state (unit_string (Js.to_lower c)) rest
      else no_scheme_state input
  | EmptyString => no_scheme_state input
  end.

Definition basic_URL_parser (input : string) : option URLRecord :=
  scheme_start_state (preprocess input).

(** [new URL(str)]: [None] stands for the [TypeError] it throws. *)
Definition new_URL (str : string) : option URLRecord := basic_URL_parser str.

End Parser.

(** A host parser on plain ASCII names, for running the handlers on
    concrete requests.  It accepts an opaque host of printable ASCII
    without forbidden host code points, and a domain whose labels are
    letters, digits and hyphens, start with a letter and carry no [xn--]
    prefix; such a domain is its own ASCII form once lower-cased.  It
    answers failure on every other input. *)
Definition is_forbidden_host_unit (c : ascii) : bool :=
  let n := nat_of_ascii c in
  ((n =? 0) || (n =? 9) || (n =? 10) || (n =? 13) || (n =? 32))%nat
  || Js.existsb (Ascii.eqb c) "#/:<>?@[\]^|".

Definition is_printable (c : ascii) : bool :=
  let n := nat_of_ascii c in ((33 <=? n) && (n <=? 126))%nat.

Fixpoint split_on (sep : ascii) (cur s : string) : list string :=
  match s with
  | String c s' =>
      if Ascii.eqb c sep then cur :: split_on sep EmptyString s'
      else split_on sep (cur ++ unit_string c) s'
  | EmptyString => [cur]
  end.

Definition is_plain_label (l : string) : bool :=
  match l with
  | String c _ =>
      Js.is_alpha c
      && Js.forallb (fun d => Js.is_alnum d || Ascii.eqb d "-") l
      && negb (String.prefix "xn--" (Js.lower l))
  | EmptyString => false
  end.

Definition ascii_host_parser (input : string) (isOpaque : bool) : option string :=
  if isOpaque then
    if Js.forallb (fun c => is_printable c && negb (is_forbidden_host_unit c)) input
    then Some input else None
  else if List.forallb is_plain_label (split_on "." EmptyString input)
  then Some (Js.lower input) else None.

End Url.

(** ** The [links] table and the statements sent to it

    [server.js] talks to the store through [db.query(sql, params)] and
    reads [rows] and [rowCount] of the result.  Each constructor of
    [Query] is one SQL text of the file.  A row of a result is a
    JavaScript object: the selected columns with their values, in the
    order of the statement. *)

Module Pg.

Local Open Scope Z_scope.

(** Modelled from the spec: the schema of [links], which is not among the
    source files.  Section 3 of the specification gives the columns;
    [code] is the primary key, [total_clicks] starts at 0, [last_clicked]
    at NULL and [created_at] at the time of the insert (section 4.2). *)
Record Row := mkRow {
  code : string;
  target_url : string;
  total_clicks : Z;
  last_clicked : option Z;
  created_at : Z
}.

Definition Table := list Row.

Inductive Column := Ccode | Ctarget_url | Ctotal_clicks | Clast_clicked | Ccreated_at.

Inductive Value :=
| VNull
| VInt (n : Z)
| VText (s : string)
| VTime (t : Z).

Definition ResultRow := list (Column * Value).

Definition column_eqb (a b : Column) : bool :=
  match a, b with
  | Ccode, Ccode | Ctarget_url, Ctarget_url | Ctotal_clicks, Ctotal_clicks
  | Clast_clicked, Clast_clicked | Ccreated_at, Ccreated_at => true
  | _, _ => false
  end.

Definition cell (r : Row) (c : Column) : Value :=
  match c with
  | Ccode => VText (code r)
  | Ctarget_url => VText (target_url r)
  | Ctotal_clicks => VInt (total_clicks r)
  | Clast_clicked => match last_clicked r with Some t => VTime t | None => VNull end
  | Ccreated_at => VTime (created_at r)
  end.

Definition project (cols : list Column) (r : Row) : ResultRow :=
  map (fun c => (c, cell r c)) cols.

(** [row.name]: [None] is [undefined]. *)
Fixpoint field (c : Column) (r : ResultRow) : option Value :=
  match r with
  | (c', v) :: r' => if column_eqb c c' then Some v else field c r'
  | [] => None
  end.

Record QueryResult := mkResult {
  rows : list ResultRow;
  rowCount : nat
}.

(** The column lists of the SELECT and RETURNING clauses. *)
Definition link_columns : list Column :=
  [Ccode; Ctarget_url; Ctotal_clicks; Clast_clicked].

Definition stats_columns : list Column :=
  [Ccode; Ctarget_url; Ctotal_clicks; Clast_clicked; Ccreated_at].

Inductive Query :=
| SelectLinks                          (* SELECT ... FROM links ORDER BY created_at DESC *)
| SelectLinksLike (pattern : string)   (* ... WHERE code ILIKE $1 OR target_url ILIKE $1 ORDER BY ... *)
| SelectStats (c : string)             (* SELECT code, ..., created_at FROM links WHERE code = $1 *)
| SelectTarget (c : string)            (* SELECT target_url FROM links WHERE code = $1 *)
| InsertLink (c url : string)          (* INSERT INTO links (code, target_url) ... RETURNING ... *)
| UpdateClicks (c : string)            (* UPDATE links SET total_clicks = total_clicks + 1, last_clicked = NOW() WHERE code = $1 *)
| DeleteLink (c : string).             (* DELETE FROM links WHERE code = $1 *)

(** SQLSTATE of a unique-constraint violation. *)
Definition unique_violation : string := "23505".

(** *** LIKE and ILIKE

    [%] matches any sequence of characters, [_] any single character, and
    a backslash makes the next character of the pattern literal.  A
    pattern that ends in a lone backslash is an error in PostgreSQL; no
    pattern of the server ends so (it always appends [%]) and the matcher
    answers [false] there. *)
Fixpoint like (p : string) : string -> bool :=
  match p with
  | EmptyString => fun t => Js.is_empty t
  | String c p' =>
      if Ascii.eqb c "%" then
        fix any (t : string) : bool :=
          like p' t || match t with
                       | String _ t' => any t'
                       | EmptyString => false
                       end
      else if Ascii.eqb c "_" then
        fun t => match t with
                 | String _ t' => like p' t'
                 | EmptyString => false
                 end
      else if Ascii.eqb c "\" then
        match p' with
        | String d p'' =>
            fun t => match t with
                     | String e t' => Ascii.eqb d e && like p'' t'
                     | EmptyString => false
                     end
        | EmptyString => fun _ => false
        end
      else
        fun t => match t with
                 | String e t' => Ascii.eqb c e && like p' t'
                 | EmptyString => false
                 end
  end.

(** ILIKE compares after lower-casing the pattern and the text. *)
Definition ilike (t p : string) : bool := like (Js.lower p) (Js.lower t).

(** *** Clauses *)

Definition code_is (c : string) (r : Row) : bool := String.eqb (code r) c.

Definition matches_like (pattern : string) (r : Row) : bool :=
  ilike (code r) pattern || ilike (target_url r) pattern.

(** ORDER BY created_at DESC; rows with equal [created_at] keep the order
    of the table. *)
Fixpoint insert_desc (r : Row) (l : list Row) : list Row :=
  match l with
  | x :: l' =>
      if created_at x <=? created_at r then r :: l
      else x :: insert_desc r l'
  | [] => [r]
  end.

Definition order_by_created_at_desc (t : Table) : list Row :=
  fold_right insert_desc [] t.

Definition click (now : Z) (r : Row) : Row :=
  mkRow (code r) (target_url r) (total_clicks r + 1) (Some now) (created_at r).

Definition select (cols : list Column) (l : list Row) : QueryResult :=
  mkResult (map (project cols) l) (List.length l).

(** [execute now q t]: the statement [q] run at time [now] on the table
    [t]; an error carries its SQLSTATE and leaves the table as it was.
    The only error of the model is the violation of the primary key by
    an INSERT; [NOW()] and the default of [created_at] are [now]. *)
Definition execute (now : Z) (q : Query) (t : Table) : (string + QueryResult) * Table :=
  match q with
  | SelectLinks =>
      (inr (select link_columns (order_by_created_at_desc t)), t)
  | SelectLinksLike pattern =>
      (inr (select link_columns
              (order_by_created_at_desc (filter (matches_like pattern) t))), t)
  | SelectStats c =>
      (inr (select stats_columns (filter (code_is c) t)), t)
  | SelectTarget c =>
      (inr (select [Ctarget_url] (filter (code_is c) t)), t)
  | InsertLink c url =>
      if List.existsb (code_is c) t then (inl unique_violation, t)
      else
        let r := mkRow c url 0 None now in
        (inr (select link_columns [r]), t ++ [r])
  | UpdateClicks c =>
      (inr (mkResult [] (List.length (filter (code_is c) t))),
       map (fun r => if code_is c r then click now r else r) t)
  | DeleteLink c =>
      (inr (mkResult [] (List.length (filter (code_is c) t))),
       filter (fun r => negb (code_is c r)) t)
  end.

End Pg.

(** ** The server

    A handler runs against the world it shares with every other request:
    the table, the statements sent so far (kept so that "no store call"
    can be stated) and the number of draws taken from [Math.random].  A
    handler either returns or throws; [try_catch] is the handler's
    [try { ... } catch (err) { ... }]. *)

Module Server.

Import Pg.
Local Open Scope string_scope.

Record World := mkWorld {
  links : Table;
  sent : list Query;
  draws : nat
}.

Inductive Exn :=
| DbError (sqlstate : string)   (* thrown by [db.query]; [err.code] is the SQLSTATE *)
| TypeError.                    (* reading a property of [undefined] *)

Inductive Outcome (A : Type) :=
| Ok (a : A)
| Throw (e : Exn).

Arguments Ok {A} a.
Arguments Throw {A} e.

Definition M (A : Type) : Type := World -> Outcome A * World.

Definition ret {A} (a : A) : M A := fun w => (Ok a, w).

Definition throw {A} (e : Exn) : M A := fun w => (Throw e, w).

Definition bind {A B} (m : M A) (k : A -> M B) : M B :=
  fun w =>
    match m w with
    | (Ok a, w') => k a w'
    | (Throw e, w') => (Throw e, w')
    end.

Definition try_catch {A} (m : M A) (handler : Exn -> M A) : M A :=
  fun w =>
    match m w with
    | (Ok a, w') => (Ok a, w')
    | (Throw e, w') => handler e w'
    end.

Notation "x <- m ;; k" := (bind m (fun x => k))
  (at level 61, m at next level, right associativity).

(** Modelled from the spec: [db.query] of [./db], which is not among the
    source files.  It runs one statement against the store and resolves
    to its result, or rejects with the store's error (sections 4.2 and
    7).  [db_query now q] is [await db.query(q)] run at time [now]; it
    records the statement in [sent]. *)
Definition db_query (now : Z) (q : Query) : M QueryResult :=
  fun w =>
    let '(r, t) := execute now q (links w) in
    let w' := mkWorld t (sent w ++ [q]) (draws w) in
    match r with
    | inr result => (Ok result, w')
    | inl sqlstate => (Throw (DbError sqlstate), w')
    end.

(** [err.code === '23505'] *)
Definition is_unique_violation (e : Exn) : bool :=
  match e with
  | DbError sqlstate => String.eqb sqlstate unique_violation
  | TypeError => false
  end.

(** The parts of a request the handlers read: [req.params.code],
    [req.query.q], and [url] and [code] of [req.body]. *)
Record Request := mkRequest {
  param_code : string;
  query_q : option string;
  body_url : option string;
  body_code : option string
}.

Inductive Json :=
| JObject (o : option ResultRow)   (* a row of a result, or [undefined] *)
| JArray (l : list ResultRow)
| JError (error : string)          (* { error: ... } *)
| JHealth.                         (* { ok, version, uptime } *)

(** What a handler hands to [res].  [Redirect] carries the target as the
    handler passed it; how the framework writes the [Location] header is
    outside the model. *)
Inductive Response :=
| SendText (status : Z) (text : string)      (* res.status(s).send(text) *)
| SendJson (status : Z) (json : Json)        (* res.status(s).json(json) *)
| RenderDashboard (links : list ResultRow) (search : string)
| RenderStats (link : option ResultRow)
| Redirect (status : Z) (target : option Value)   (* res.redirect(s, target) *)
| End (status : Z).                          (* res.status(s).end() *)

Definition status (r : Response) : Z :=
  match r with
  | SendText s _ | SendJson s _ | Redirect s _ | End s => s
  | RenderDashboard _ _ | RenderStats _ => 200
  end.

(** The body a client receives, if any; a redirect has no body of the
    application's own. *)
Definition has_body (r : Response) : bool :=
  match r with
  | End _ => false
  | _ => true
  end.

Definition internal_server_error_text : Response := SendText 500 "Internal Server Error".
Definition internal_server_error_json : Response := SendJson 500 (JError "Internal Server Error").

(** [const CODE_REGEX = /^[A-Za-z0-9]{6,8}$/] and its [test]. *)
Definition CODE_REGEX_test (s : string) : bool :=
  (6 <=? String.length s)%nat && (String.length s <=? 8)%nat && Js.forallb Js.is_alnum s.

Definition chars : string :=
  "ABCDEFGHIJKLMNOPQRSTUVWXYZabcdefghijklmnopqrstuvwxyz0123456789".

Section Handlers.

(** The platform: the host parser behind [new URL], and the values that
    successive calls of [Math.random()] return. *)
Variable host_parser : string -> bool -> option string.
Variable random : nat -> Q.

Definition Math_random : M Q :=
  fun w => (Ok (random (draws w)), mkWorld (links w) (sent w) (S (draws w))).

Definition isValidUrl (str : string) : bool :=
  match Url.new_URL host_parser str with
  | Some _ => true
  | None => false
  end.

(** [Math.floor(Math.random() * chars.length)] for the draw [r]; the
    draws are rationals and the product is exact. *)
Definition random_index (r : Q) : Z :=
  Qfloor (r * inject_Z (Z.of_nat (String.length chars))).

Fixpoint generateCode_from (out : string) (remaining : nat) : M string :=
  match remaining with
  | O => ret out
  | S n =>
      r <- Math_random ;;
      generateCode_from (Js.append_unit out (Js.index chars (random_index r))) n
  end.

Definition generateCode (length : nat) : M string := generateCode_from "" length.

(** GET /healthz *)
Definition healthz (now : Z) (req : Request) : M Response :=
  ret (SendJson 200 JHealth).

(** GET / *)
Definition dashboard (now : Z) (req : Request) : M Response :=
  let q := match query_q req with Some s => s | None => "" end in
  try_catch
    (result <-
       (if negb (Js.is_empty q) then
          let like := "%" ++ q ++ "%" in
          db_query now (SelectLinksLike like)
        else db_query now SelectLinks) ;;
     ret (RenderDashboard (rows result) q))
    (fun err => ret internal_server_error_text).

(** GET /code/:code *)
Definition stats_page (now : Z) (req : Request) : M Response :=
  let code := param_code req in
  try_catch
    (result <- db_query now (SelectStats code) ;;
     if (rowCount result =? 0)%nat then ret (SendText 404 "Link not found")
     else ret (RenderStats (hd_error (rows result))))
    (fun err => ret internal_server_error_text).

(** POST /api/links *)
Definition create_link (now : Z) (req : Request) : M Response :=
  try_catch
    (match body_url req with
     | None => ret (SendJson 400 (JError "Invalid or missing URL"))
     | Some url =>
         if Js.is_empty url || negb (isValidUrl url) then
           ret (SendJson 400 (JError "Invalid or missing URL"))
         else if negb (Js.falsy (body_code req))
                 && negb (match body_code req with
                          | Some c => CODE_REGEX_test c
                          | None => false
                          end) then
           ret (SendJson 400 (JError "Custom code must match [A-Za-z0-9]{6,8}"))
         else
           code <- match body_code req with
                   | Some c => if Js.is_empty c then generateCode 6 else ret c
                   | None => generateCode 6
                   end ;;
           result <- db_query now (InsertLink code url) ;;
           ret (SendJson 201 (JObject (hd_error (rows result))))
     end)
    (fun err =>
       if is_unique_violation err then ret (SendJson 409 (JError "Code already exists"))
       else ret internal_server_error_json).

(** GET /api/links *)
Definition list_links (now : Z) (req : Request) : M Response :=
  try_catch
    (result <- db_query now SelectLinks ;;
     ret (SendJson 200 (JArray (rows result))))
    (fun err => ret internal_server_error_json).

(** GET /api/links/:code *)
Definition get_link (now : Z) (req : Request) : M Response :=
  let code := param_code req in
  try_catch
    (result <- db_query now (SelectStats code) ;;
     if (rowCount result =? 0)%nat then ret (SendJson 404 (JError "Link not found"))
     else ret (SendJson 200 (JObject (hd_error (rows result)))))
    (fun err => ret internal_server_error_json).

(** DELETE /api/links/:code *)
Definition delete_link (now : Z) (req : Request) : M Response :=
  let code := param_code req in
  try_catch
    (result <- db_query now (DeleteLink code) ;;
     if (rowCount result =? 0)%nat then ret (SendJson 404 (JError "Link not found"))
     else ret (End 204))
    (fun err => ret internal_server_error_json).

(** GET /:code *)
Definition redirect (now : Z) (req : Request) : M Response :=
  let code := param_code req in
  try_catch
    (result <- db_query now (SelectTarget code) ;;
     if (rowCount result =? 0)%nat then ret (SendText 404 "Not found")
     else
       row <- match rows result with
              | r :: _ => ret r
              | [] => throw TypeError
              end ;;
       let targetUrl := field Ctarget_url row in
       _ <- db_query now (UpdateClicks code) ;;
       ret (Redirect 302 targetUrl))
    (fun err => ret internal_server_error_text).

(** The routes, in the order they are registered. *)
Inductive Route :=
| Healthz | Dashboard | StatsPage | CreateLink | ListLinks | GetLink | DeleteLinkRoute
| RedirectRoute.

Definition handler (r : Route) : Z -> Request -> M Response :=
  match r with
  | Healthz => healthz
  | Dashboard => dashboard
  | StatsPage => stats_page
  | CreateLink => create_link
  | ListLinks => list_links
  | GetLink => get_link
  | DeleteLinkRoute => delete_link
  | RedirectRoute => redirect
  end.

(** One request served: the route, the time it runs at, and the request. *)
Record Call := mkCall {
  route : Route;
  at_time : Z;
  request : Request
}.

Definition serve (c : Call) (w : World) : Outcome Response * World :=
  handler (route c) (at_time c) (request c) w.

(** A sequence of requests served one after the other. *)
Fixpoint serve_all (cs : list Call) (w : World) : World :=
  match cs with
  | c :: cs' => serve_all cs' (snd (serve c w))
  | [] => w
  end.

End Handlers.

End Server.

(** ** The page script

    [public/main.js] wires the dashboard: the form that creates a link
    and the delete button of each row.  A handler is modelled by what it
    leaves on the page once its [fetch] has settled: the message under
    the form and its classes, whether the submit button is enabled again,
    whether the form was reset and the page reloaded; for a delete
    button, a reload, an alert, or nothing.  The request the script
    sends is the JSON body of its [fetch]; the response is what the
    server handler answered, or a network failure. *)

Module Page.

Import Server.
Local Open Scope string_scope.

(** How a [fetch] settles: with the server's response, or rejected. *)
Inductive Fetch :=
| Responded (r : Response)
| Rejected.

(** [res.ok]: a status from 200 to 299. *)
Definition ok (r : Response) : bool :=
  (200 <=? status r)%Z && (status r <=? 299)%Z.

(** [(await res.json().catch(() => ({}))).error]: the [error] member of
    a JSON body, [undefined] for any other body. *)
Definition error_member (r : Response) : option string :=
  match r with
  | SendJson _ (JError e) => Some e
  | _ => None
  end.

(** [v || fallback] for a string or [undefined]. *)
Definition or_else (v : option string) (fallback : string) : string :=
  match v with
  | Some s => if Js.is_empty s then fallback else s
  | None => fallback
  end.

Record Form := mkForm {
  message : string;             (* messageEl.textContent *)
  classes : list string;        (* messageEl.className, then classList.add *)
  submit_disabled : bool;       (* submitBtn.disabled *)
  form_reset : bool;            (* createForm.reset() was called *)
  reloaded : bool               (* window.location.reload() was called *)
}.

(** The body of the request: [JSON.stringify({ url, code })] for the
    values of the form's fields. *)
Definition create_request (url code : string) : Request :=
  mkRequest "" None (Some url) (Some code).

(** The submit handler of the form, from the point where [fetch] has
    settled to the end of its [finally]. *)
Definition on_submit (f : Fetch) : Form :=
  match f with
  | Responded res =>
      if negb (ok res) then
        mkForm (or_else (error_member res) "Error creating link")
          ["form-message"; "error"] false false false
      else
        mkForm "Link created successfully!" ["form-message"; "success"] false true true
  | Rejected => mkForm "Network error" ["form-message"; "error"] false false false
  end.

(** What a click on a delete button ends in. *)
Inductive Clicked :=
| Nothing                 (* returned before any request *)
| Reloaded                (* window.location.reload() *)
| Alerted (text : string).  (* alert(text) *)

(** The request of a delete button, DELETE /api/links/<code>: a code of
    letters and digits is its own path segment. *)
Definition delete_request (code : string) : Request := mkRequest code None None None.

(** The click handler of a delete button: [dataCode] is the button's
    [data-code] attribute, [confirmed] the answer to the confirmation,
    and [send] the [fetch] of the DELETE request. *)
Definition on_delete_click (dataCode : option string) (confirmed : bool)
  (send : Request -> Fetch) : Clicked :=
  match dataCode with
  | None => Nothing
  | Some code =>
      if Js.is_empty code then Nothing
      else if negb confirmed then Nothing
      else
        match send (delete_request code) with
        | Responded res =>
            if (status res =? 204)%Z then Reloaded else Alerted "Error deleting link"
        | Rejected => Alerted "Network error"
        end
  end.

End Page.

(** ** Route order

    The routes are tried in the order [server.js] registers them, after
    [express.static].  For a GET whose path is one segment of letters
    and digits, [/seg], three of them can answer: the static middleware,
    when [public/] holds a file of that name ([is_file]); [/healthz],
    which the framework matches without regard to letter case; and
    [/:code], last.  The paths [/], [/code/:code], [/api/links] and
    [/api/links/:code] have another number of segments. *)

Module Routing.

Import Server.
Local Open Scope string_scope.

Section Get.

Variable is_file : string -> bool.
Variable host_parser : string -> bool -> option string.
Variable random : nat -> Q.

(** The route that answers GET [/seg], [None] when the static middleware
    does. *)
Definition route_of_segment (seg : string) : option (Route * Request) :=
  if is_file seg then None
  else if String.eqb (Js.lower seg) "healthz" then
    Some (Healthz, mkRequest "" None None None)
  else Some (RedirectRoute, mkRequest seg None None None).

(** GET [/seg] served at time [now]. *)
Definition get_segment (now : Z) (seg : string) (w : World)
  : option (Outcome Response * World) :=
  match route_of_segment seg with
  | Some (rt, req) => Some (handler host_parser random rt now req w)
  | None => None
  end.

End Get.

End Routing.

(** * Properties *)

Import Pg Server.

Local Open Scope Z_scope.
Local Open Scope string_scope.

(** ** Vocabulary of the statements *)

(** The row stored under a code: the first row of the table that carries
    it (the only one when codes are unique). *)
Definition row_of (c : string) (t : Table) : option Row := find (code_is c) t.

(** The primary key: no two rows of the table share a code. *)
Definition unique_codes (t : Table) : Prop := NoDup (map code t).

(** [Math.random()] returns a number in [0, 1). *)
Definition in_unit_interval (rnd : nat -> Q) : Prop :=
  forall i, (0 <= rnd i)%Q /\ (rnd i < 1)%Q.

(** A unit of the 62-character alphabet. *)
Definition in_chars (c : ascii) : bool := Js.existsb (Ascii.eqb c) chars.

(** [q.includes(t)]-style containment: [q] occurs in [t] as a substring. *)
Fixpoint starts_with (q t : string) : bool :=
  match q with
  | EmptyString => true
  | String c q' =>
      match t with
      | String e t' => Ascii.eqb c e && starts_with q' t'
      | EmptyString => false
      end
  end.

Fixpoint includes (q t : string) : bool :=
  starts_with q t
  || match t with
     | String _ t' => includes q t'
     | EmptyString => false
     end.

(** [q] occurs in [t] when case is ignored. *)
Definition contains_ci (q t : string) : bool := includes (Js.lower q) (Js.lower t).

(** The characters that LIKE does not take literally. *)
Definition like_special (c : ascii) : bool :=
  Ascii.eqb c "%" || Ascii.eqb c "_" || Ascii.eqb c "\".


(** Rows listed newest first. *)
Definition newest_first (l : list Row) : Prop :=
  StronglySorted (fun a b => created_at b <= created_at a) l.

(** The shape of a scheme: an ASCII letter, then letters, digits, [+],
    [-] and [.]. *)
Definition is_scheme (s : string) : bool :=
  match s with
  | String c s' => Js.is_alpha c && Js.forallb Url.is_scheme_unit s'
  | EmptyString => false
  end.

(** What every state reached through an authority returns: the scheme it
    was given and some host. *)
Definition with_host (u u' : Url.URLRecord) : Prop :=
  Url.scheme u' = Url.scheme u /\ Url.host u' <> None.

(** What an INSERT sent by POST /api/links does to the table: nothing,
    or one fresh row with zeroed counters at the end. *)
Definition appended (t t' : Table) : Prop :=
  t' = t \/
  exists r, t' = (t ++ [r])%list /\ row_of (code r) t = None /\
            total_clicks r = 0 /\ last_clicked r = None.

(** A call that deletes the code [k], and a call that redirects it. *)
Definition deletes (k : string) (c : Call) : bool :=
  match route c with
  | DeleteLinkRoute => String.eqb k (param_code (request c))
  | _ => false
  end.

Definition clicks (k : string) (c : Call) : bool :=
  match route c with
  | RedirectRoute => String.eqb k (param_code (request c))
  | _ => false
  end.

(** The number of redirects of the code [k] in a sequence of calls. *)
Fixpoint clicks_on (k : string) (cs : list Call) : Z :=
  match cs with
  | c :: cs' => (if clicks k c then 1 else 0) + clicks_on k cs'
  | [] => 0
  end.

(** A computation that keeps the codes of the table unique. *)
Definition keeps_unique {A} (m : M A) : Prop :=
  forall w, unique_codes (links w) -> unique_codes (links (snd (m w))).

(** *** Requests to POST /api/links *)

(** [url] is present, non-empty and accepted by the validator. *)
Definition url_ok (hp : string -> bool -> option string) (req : Request) : bool :=
  match body_url req with
  | Some u => negb (Js.is_empty u) && isValidUrl hp u
  | None => false
  end.

(** [code] is absent, empty or matches the pattern. *)
Definition code_ok (req : Request) : bool :=
  match body_code req with
  | Some c => Js.is_empty c || CODE_REGEX_test c
  | None => true
  end.

(** The code the handler inserts: the custom one, or a generated one
    when the custom one is absent or empty. *)
Definition chosen_code (rnd : nat -> Q) (req : Request) : M string :=
  match body_code req with
  | Some c => if Js.is_empty c then generateCode rnd 6 else ret c
  | None => generateCode rnd 6
  end.

(** The row an INSERT of POST /api/links creates, and its JSON. *)
Definition new_row (c url : string) (now : Z) : Row := mkRow c url 0 None now.

Definition created (c url : string) (now : Z) : Response :=
  SendJson 201 (JObject (Some (project link_columns (new_row c url now)))).

Definition conflict : Response := SendJson 409 (JError "Code already exists").

(** *** Routes and rows *)

(** The routes that only read: every GET but the redirect. *)
Definition reads_only (rt : Route) : bool :=
  match rt with
  | Healthz | Dashboard | StatsPage | ListLinks | GetLink => true
  | CreateLink | DeleteLinkRoute | RedirectRoute => false
  end.

(** The statements that only read. *)
Definition is_select (q : Query) : bool :=
  match q with
  | SelectLinks | SelectLinksLike _ | SelectStats _ | SelectTarget _ => true
  | InsertLink _ _ | UpdateClicks _ | DeleteLink _ => false
  end.

(** A row whose counters agree: never negative, and zero exactly when
    the row was never clicked. *)
Definition counters_agree (r : Row) : Prop :=
  0 <= total_clicks r /\ (total_clicks r = 0 <-> last_clicked r = None).

(** A row that POST /api/links would accept today. *)
Definition well_formed (hp : string -> bool -> option string) (r : Row) : Prop :=
  CODE_REGEX_test (code r) = true /\ isValidUrl hp (target_url r) = true.

(** What one request can do to the table: nothing; a DELETE drops the
    rows of its code; a redirect clicks the rows of its code; a POST
    that passed validation appends one row under a code that was free. *)
Definition table_change (hp : string -> bool -> option string) (rnd : nat -> Q)
  (c : Call) (w : World) (t' : Table) : Prop :=
  t' = links w \/
  (route c = DeleteLinkRoute /\
   t' = filter (fun x => negb (code_is (param_code (request c)) x)) (links w)) \/
  (route c = RedirectRoute /\
   t' = map (fun r => if code_is (param_code (request c)) r then click (at_time c) r else r)
          (links w)) \/
  (route c = CreateLink /\
   exists k url,
     t' = (links w ++ [new_row k url (at_time c)])%list /\
     row_of k (links w) = None /\
     body_url (request c) = Some url /\
     url_ok hp (request c) = true /\
     code_ok (request c) = true /\
     fst (chosen_code rnd (request c) w) = Ok k).

(** The time of the last redirect of [k] in a sequence of calls, [init]
    when there is none. *)
Fixpoint last_click (k : string) (cs : list Call) (init : option Z) : option Z :=
  match cs with
  | c :: cs' => last_click k cs' (if clicks k c then Some (at_time c) else init)
  | [] => init
  end.

Definition no_backslash (q : string) : bool :=
  Js.forallb (fun c => negb (Ascii.eqb c "\")) q.

(** *** Concrete tables, draws and requests *)

Definition empty_world : World := mkWorld [] [] 0.

Definition sample_row : Row := mkRow "abc123" "https://example.com/" 4 None 100.

Definition older_row : Row := mkRow "Docs42" "https://docs.example.org/Guide" 0 None 50.

(** A [Math.random] that returns 0 at every call. *)
Definition zero_draws : nat -> Q := fun _ => 0%Q.

Definition sample_calls : list Call :=
  [ mkCall RedirectRoute 210 (mkRequest "abc123" None None None);
    mkCall CreateLink 220 (mkRequest "" None (Some "https://example.net/") (Some "abc123"));
    mkCall DeleteLinkRoute 230 (mkRequest "other1" None None None);
    mkCall ListLinks 240 (mkRequest "" None None None);
    mkCall RedirectRoute 250 (mkRequest "abc123" None None None) ].

Definition docs_request : Request :=
  mkRequest "" None (Some "https://docs.example.org/Guide") (Some "Docs42").

Definition reuse_request : Request :=
  mkRequest "" None (Some "https://example.net/new") (Some "abc123").

(** A [public/] directory with no file named like a code. *)
Definition no_files : string -> bool := fun _ => false.

Definition healthz_request : Request :=
  mkRequest "" None (Some "https://example.com") (Some "HealthZ").

(** ** Rows by code *)

Lemma code_is_true c r : code_is c r = true <-> code r = c.
Proof. unfold code_is. apply String.eqb_eq. Qed.

Lemma code_is_false c r : code_is c r = false <-> code r <> c.
Proof. unfold code_is. apply String.eqb_neq. Qed.

Lemma row_of_code c t r : row_of c t = Some r -> code r = c.
Proof.
  unfold row_of. intros H. apply find_some in H. now apply code_is_true.
Qed.

Lemma row_of_In c t r : row_of c t = Some r -> In r t.
Proof. unfold row_of. intros H. now apply find_some in H. Qed.

Lemma row_of_none_filter c t : row_of c t = None -> filter (code_is c) t = [].
Proof.
  unfold row_of. induction t as [|x t IH]; simpl; [reflexivity|].
  destruct (code_is c x); [discriminate | exact IH].
Qed.

Lemma row_of_some_filter c t r :
  row_of c t = Some r -> exists l, filter (code_is c) t = r :: l.
Proof.
  unfold row_of. induction t as [|x t IH]; simpl; [discriminate|].
  destruct (code_is c x).
  - intros [= ->]. eauto.
  - exact IH.
Qed.

Lemma row_of_none_existsb c t : row_of c t = None <-> existsb (code_is c) t = false.
Proof.
  unfold row_of. induction t as [|x t IH]; simpl; [tauto|].
  destruct (code_is c x); simpl; [split; discriminate | exact IH].
Qed.

Lemma unique_codes_not_in c r t :
  unique_codes (r :: t) -> code r = c -> filter (code_is c) t = [].
Proof.
  unfold unique_codes. simpl. intros H Hc. apply NoDup_cons_iff in H as [Hn _].
  induction t as [|x t IH]; simpl; [reflexivity|].
  simpl in Hn. destruct (code_is c x) eqn:E.
  - apply code_is_true in E. exfalso. apply Hn. left. congruence.
  - apply IH. tauto.
Qed.

Lemma unique_codes_tail r t : unique_codes (r :: t) -> unique_codes t.
Proof. unfold unique_codes. simpl. intros H. now apply NoDup_cons_iff in H. Qed.

(** With unique codes, the rows selected by a code are the one row stored
    under it. *)
Lemma unique_codes_filter c t r :
  unique_codes t -> row_of c t = Some r -> filter (code_is c) t = [r].
Proof.
  unfold row_of. induction t as [|x t IH]; simpl; [discriminate|].
  intros U. destruct (code_is c x) eqn:E.
  - intros [= ->]. f_equal. apply (unique_codes_not_in c _ t U). now apply code_is_true.
  - apply IH. eapply unique_codes_tail; eauto.
Qed.

(** With unique codes, a stored row splits the table around itself. *)
Lemma unique_codes_split c t r :
  unique_codes t -> row_of c t = Some r ->
  exists l1 l2,
    t = (l1 ++ r :: l2)%list /\
    filter (fun x => negb (code_is c x)) t = (l1 ++ l2)%list.
Proof.
  unfold row_of. induction t as [|x t IH]; simpl; [discriminate|].
  intros U. destruct (code_is c x) eqn:E; simpl.
  - intros [= ->]. exists [], t. split; [reflexivity|]. simpl.
    assert (F : filter (code_is c) t = []).
    { apply (unique_codes_not_in c _ t U). now apply code_is_true. }
    clear IH U E. induction t as [|y t IHt]; simpl in *; [reflexivity|].
    destruct (code_is c y); [discriminate|]. simpl. f_equal. now apply IHt.
  - intros H. destruct (IH (unique_codes_tail x t U) H) as (l1 & l2 & -> & H2).
    exists (x :: l1), l2. simpl. split; congruence.
Qed.

Lemma row_of_clicked c c' now t :
  row_of c' (map (fun r => if code_is c r then click now r else r) t) =
  if String.eqb c' c then option_map (click now) (row_of c' t) else row_of c' t.
Proof.
  unfold row_of. induction t as [|x t IH]; simpl.
  - now destruct (String.eqb c' c).
  - destruct (code_is c x) eqn:E.
    + unfold code_is at 1. simpl. fold (code_is c' x).
      destruct (String.eqb c' c) eqn:E'.
      * apply String.eqb_eq in E'. subst c'. rewrite E. reflexivity.
      * destruct (code_is c' x) eqn:E2.
        -- apply code_is_true in E, E2. apply String.eqb_neq in E'. congruence.
        -- rewrite IH. reflexivity.
    + destruct (code_is c' x) eqn:E2.
      * destruct (String.eqb c' c) eqn:E'; [|reflexivity].
        apply String.eqb_eq in E'. subst. congruence.
      * exact IH.
Qed.

Lemma row_of_deleted c c' t :
  row_of c' (filter (fun r => negb (code_is c r)) t) =
  if String.eqb c' c then None else row_of c' t.
Proof.
  unfold row_of. induction t as [|x t IH]; simpl.
  - now destruct (String.eqb c' c).
  - destruct (code_is c x) eqn:E; simpl.
    + rewrite IH. destruct (String.eqb c' c) eqn:E'; [reflexivity|].
      destruct (code_is c' x) eqn:E2; [|reflexivity].
      apply code_is_true in E, E2. apply String.eqb_neq in E'. congruence.
    + destruct (code_is c' x) eqn:E2.
      * destruct (String.eqb c' c) eqn:E'; [|reflexivity].
        apply String.eqb_eq in E'. subst. congruence.
      * exact IH.
Qed.

Lemma row_of_inserted c' t r :
  row_of c' (t ++ [r])%list =
  match row_of c' t with
  | Some x => Some x
  | None => if code_is c' r then Some r else None
  end.
Proof.
  unfold row_of. induction t as [|x t IH]; simpl; [reflexivity|].
  destruct (code_is c' x); [reflexivity | exact IH].
Qed.

(** ** The redirect route *)

(** C1: on a table that holds a row under the requested code, GET /:code
    answers with a 302 redirect to the stored [target_url]; afterwards
    the row under that code has [total_clicks] one higher and
    [last_clicked] equal to the time of the request, its other columns
    are as before, and the rows under other codes are as before. *)
Theorem redirect_known_code (now : Z) (req : Request) (w : World) (r : Row) :
  row_of (param_code req) (links w) = Some r ->
  fst (redirect now req w) = Ok (Redirect 302 (Some (VText (target_url r)))) /\
  (exists r',
      row_of (param_code req) (links (snd (redirect now req w))) = Some r' /\
      total_clicks r' = total_clicks r + 1 /\
      last_clicked r' = Some now /\
      code r' = code r /\ target_url r' = target_url r /\ created_at r' = created_at r) /\
  (forall c', c' <> param_code req ->
      row_of c' (links (snd (redirect now req w))) = row_of c' (links w)).
Proof.
  intros H. destruct (row_of_some_filter _ _ _ H) as [l Hl].
  unfold redirect, try_catch, bind, db_query. simpl. rewrite Hl. simpl.
  split; [reflexivity|]. split.
  - exists (click now r). rewrite row_of_clicked, String.eqb_refl, H. simpl. tauto.
  - intros c' Hc. rewrite row_of_clicked.
    apply String.eqb_neq in Hc. now rewrite Hc.
Qed.

Lemma redirect_known_code_witness :
  fst (redirect 200 (mkRequest "abc123" None None None) (mkWorld [sample_row] [] 0))
  = Ok (Redirect 302 (Some (VText "https://example.com/"))).
Proof.
  apply (redirect_known_code 200 (mkRequest "abc123" None None None)
           (mkWorld [sample_row] [] 0) sample_row).
  reflexivity.
Defined.

(** A redirect of a code that is not stored leaves the table alone. *)
Lemma redirect_miss (now : Z) (req : Request) (w : World) :
  row_of (param_code req) (links w) = None ->
  links (snd (redirect now req w)) = links w.
Proof.
  intros H. unfold redirect, try_catch, bind, db_query. simpl.
  now rewrite (row_of_none_filter _ _ H).
Qed.

(** C4: on a table with no row under the requested code, GET /:code
    answers 404 with a plain text body, which is not a redirect; the
    only statement it sends is the SELECT, and the table is left exactly
    as it was. *)
Theorem redirect_unknown_code (now : Z) (req : Request) (w : World) :
  row_of (param_code req) (links w) = None ->
  fst (redirect now req w) = Ok (SendText 404 "Not found") /\
  sent (snd (redirect now req w)) = (sent w ++ [SelectTarget (param_code req)])%list /\
  links (snd (redirect now req w)) = links w.
Proof.
  intros H. apply row_of_none_filter in H.
  unfold redirect, try_catch, bind, db_query. simpl.
  rewrite H. simpl. repeat split.
Qed.

Lemma redirect_unknown_code_witness :
  fst (redirect 200 (mkRequest "zzzzzz" None None None) (mkWorld [sample_row] [] 0))
  = Ok (SendText 404 "Not found") /\
  sent (snd (redirect 200 (mkRequest "zzzzzz" None None None) (mkWorld [sample_row] [] 0)))
  = [SelectTarget "zzzzzz"] /\
  links (snd (redirect 200 (mkRequest "zzzzzz" None None None) (mkWorld [sample_row] [] 0)))
  = [sample_row].
Proof.
  apply (redirect_unknown_code 200 (mkRequest "zzzzzz" None None None)
           (mkWorld [sample_row] [] 0)).
  reflexivity.
Defined.

(** ** Deleting a link *)

(** C7: DELETE /api/links/:code on a code with no row answers 404 and
    leaves the table as it was; on a code with a row it answers 204 with
    no body, the table loses that row and keeps every other row in
    place, and GET /api/links/:code on the same code then answers 404. *)
Theorem delete_link_spec (now : Z) (req : Request) (w : World) :
  unique_codes (links w) ->
  match row_of (param_code req) (links w) with
  | None =>
      fst (delete_link now req w) = Ok (SendJson 404 (JError "Link not found")) /\
      links (snd (delete_link now req w)) = links w
  | Some r =>
      fst (delete_link now req w) = Ok (End 204) /\
      has_body (End 204) = false /\
      (exists l1 l2,
          links w = (l1 ++ r :: l2)%list /\
          links (snd (delete_link now req w)) = (l1 ++ l2)%list) /\
      (forall now', fst (get_link now' req (snd (delete_link now req w)))
                    = Ok (SendJson 404 (JError "Link not found")))
  end.
Proof.
  intros U. destruct (row_of (param_code req) (links w)) as [r|] eqn:H.
  - destruct (row_of_some_filter _ _ _ H) as [l Hl].
    unfold delete_link, try_catch, bind, db_query. simpl. rewrite Hl. simpl.
    split; [reflexivity|]. split; [reflexivity|]. split.
    + destruct (unique_codes_split _ _ _ U H) as (l1 & l2 & E1 & E2). eauto.
    + intros now'. unfold get_link, try_catch, bind, db_query. simpl.
      rewrite (row_of_none_filter (param_code req)); [reflexivity|].
      rewrite row_of_deleted. now rewrite String.eqb_refl.
  - unfold delete_link, try_catch, bind, db_query. simpl.
    rewrite (row_of_none_filter _ _ H). simpl. split; [reflexivity|].
    clear U. unfold row_of in H. induction (links w) as [|x t IH]; simpl in *; [reflexivity|].
    destruct (code_is (param_code req) x); [discriminate|]. simpl. f_equal. now apply IH.
Qed.

Lemma delete_link_spec_witness :
  fst (delete_link 200 (mkRequest "abc123" None None None) (mkWorld [sample_row] [] 0))
  = Ok (End 204).
Proof.
  apply (delete_link_spec 200 (mkRequest "abc123" None None None)
           (mkWorld [sample_row] [] 0)).
  unfold unique_codes. simpl. constructor; [simpl; tauto | constructor].
Defined.

(** ** The routes that take a code from the path *)

(** C10: for every code, of any shape, GET /api/links/:code, DELETE
    /api/links/:code and GET /:code send their lookup to the store as
    their first statement, answer 404 when no row is stored under the
    code, and never answer 400. *)
Theorem code_routes_do_not_validate (now : Z) (req : Request) (w : World) :
  (exists resp,
      fst (get_link now req w) = Ok resp /\
      sent (snd (get_link now req w)) = (sent w ++ [SelectStats (param_code req)])%list /\
      status resp <> 400 /\
      match row_of (param_code req) (links w) with
      | None => resp = SendJson 404 (JError "Link not found")
      | Some _ => status resp = 200
      end) /\
  (exists resp,
      fst (delete_link now req w) = Ok resp /\
      sent (snd (delete_link now req w)) = (sent w ++ [DeleteLink (param_code req)])%list /\
      status resp <> 400 /\
      match row_of (param_code req) (links w) with
      | None => resp = SendJson 404 (JError "Link not found")
      | Some _ => status resp = 204
      end) /\
  (exists resp more,
      fst (redirect now req w) = Ok resp /\
      sent (snd (redirect now req w))
      = (sent w ++ SelectTarget (param_code req) :: more)%list /\
      status resp <> 400 /\
      match row_of (param_code req) (links w) with
      | None => resp = SendText 404 "Not found"
      | Some _ => status resp = 302
      end).
Proof.
  destruct (row_of (param_code req) (links w)) as [r|] eqn:H.
  - destruct (row_of_some_filter _ _ _ H) as [l Hl].
    repeat split.
    + eexists. unfold get_link, try_catch, bind, db_query. simpl. rewrite Hl. simpl.
      repeat split. discriminate.
    + eexists. unfold delete_link, try_catch, bind, db_query. simpl. rewrite Hl. simpl.
      repeat split. discriminate.
    + eexists. exists [UpdateClicks (param_code req)].
      unfold redirect, try_catch, bind, db_query. simpl. rewrite Hl. simpl.
      rewrite <- app_assoc. repeat split. discriminate.
  - pose proof (row_of_none_filter _ _ H) as Hl.
    repeat split.
    + eexists. unfold get_link, try_catch, bind, db_query. simpl. rewrite Hl. simpl.
      repeat split. discriminate.
    + eexists. unfold delete_link, try_catch, bind, db_query. simpl. rewrite Hl. simpl.
      repeat split. discriminate.
    + eexists. exists [].
      unfold redirect, try_catch, bind, db_query. simpl. rewrite Hl. simpl.
      repeat split. discriminate.
Qed.

(** ** Creating a link *)

Lemma isValidUrl_nonempty hp url : isValidUrl hp url = true -> Js.is_empty url = false.
Proof. destruct url; [discriminate | reflexivity]. Qed.

Lemma CODE_REGEX_nonempty c : CODE_REGEX_test c = true -> Js.is_empty c = false.
Proof. destruct c; [discriminate | reflexivity]. Qed.

Lemma row_of_some_existsb c t r : row_of c t = Some r -> existsb (code_is c) t = true.
Proof.
  intros H. destruct (existsb (code_is c) t) eqn:E; [reflexivity|].
  apply row_of_none_existsb in E. congruence.
Qed.

(** C3: on a table that already holds a row under the code [c], POST
    /api/links with a valid URL and the explicit code [c] answers 409;
    the table is left as it was, so it still holds exactly one row under
    [c], the row that was there. *)
Theorem create_link_duplicate (hp : string -> bool -> option string) (rnd : nat -> Q)
  (now : Z) (req : Request) (w : World) (url c : string) (r : Row) :
  body_url req = Some url ->
  body_code req = Some c ->
  isValidUrl hp url = true ->
  CODE_REGEX_test c = true ->
  unique_codes (links w) ->
  row_of c (links w) = Some r ->
  fst (create_link hp rnd now req w) = Ok (SendJson 409 (JError "Code already exists")) /\
  links (snd (create_link hp rnd now req w)) = links w /\
  filter (code_is c) (links (snd (create_link hp rnd now req w))) = [r].
Proof.
  intros Hu Hc Hv Hre U Hr.
  assert (E : create_link hp rnd now req w
              = (Ok (SendJson 409 (JError "Code already exists")),
                 mkWorld (links w) (sent w ++ [InsertLink c url]) (draws w))).
  { unfold create_link, try_catch, bind. rewrite Hu, Hc. simpl.
    rewrite (isValidUrl_nonempty _ _ Hv), Hv, (CODE_REGEX_nonempty _ Hre), Hre. simpl.
    unfold ret at 1. unfold db_query. simpl.
    rewrite (row_of_some_existsb _ _ _ Hr). reflexivity. }
  rewrite E. simpl. repeat split. now apply unique_codes_filter.
Qed.

Lemma create_link_duplicate_witness :
  fst (create_link Url.ascii_host_parser zero_draws 200
         (mkRequest "" None (Some "https://example.org/") (Some "abc123"))
         (mkWorld [sample_row] [] 0))
  = Ok (SendJson 409 (JError "Code already exists")).
Proof.
  apply (create_link_duplicate Url.ascii_host_parser zero_draws 200
           (mkRequest "" None (Some "https://example.org/") (Some "abc123"))
           (mkWorld [sample_row] [] 0) "https://example.org/" "abc123" sample_row);
    try reflexivity.
  unfold unique_codes. simpl. constructor; [simpl; tauto | constructor].
Defined.

(** *** Strings under concatenation *)

Lemma append_assoc (a b c : string) : (a ++ b) ++ c = a ++ (b ++ c).
Proof. induction a as [|x a IH]; simpl; [reflexivity | now rewrite IH]. Qed.

Lemma append_empty_r (a : string) : a ++ "" = a.
Proof. induction a as [|x a IH]; simpl; [reflexivity | now rewrite IH]. Qed.

Lemma length_append (a b : string) :
  String.length (a ++ b) = (String.length a + String.length b)%nat.
Proof. induction a as [|x a IH]; simpl; [reflexivity | now rewrite IH]. Qed.

Lemma forallb_append p (a b : string) :
  Js.forallb p (a ++ b) = Js.forallb p a && Js.forallb p b.
Proof.
  induction a as [|x a IH]; simpl; [reflexivity|].
  rewrite IH. now rewrite andb_assoc.
Qed.

(** *** Generated codes *)

Lemma chars_length : String.length chars = 62%nat.
Proof. reflexivity. Qed.

Lemma random_index_range (r : Q) :
  (0 <= r)%Q -> (r < 1)%Q -> 0 <= random_index r < 62.
Proof.
  intros H0 H1. unfold random_index. rewrite chars_length.
  change (inject_Z (Z.of_nat 62)) with (inject_Z 62).
  split.
  - rewrite <- (Qfloor_Z 0). apply Qfloor_resp_le.
    change (inject_Z 0) with (0 * inject_Z 62)%Q.
    apply Qmult_le_compat_r; [exact H0 | discriminate].
  - apply Qlt_not_le in H1.
    destruct (Z_lt_ge_dec (Qfloor (r * inject_Z 62)) 62) as [L|G]; [exact L|].
    exfalso. apply H1.
    assert (G' : (inject_Z 62 <= r * inject_Z 62)%Q).
    { eapply Qle_trans; [|apply Qfloor_le]. rewrite <- Zle_Qle. lia. }
    apply (Qmult_le_r 1 r (inject_Z 62)); [reflexivity|].
    now rewrite Qmult_1_l.
Qed.

Lemma chars_get (n : nat) :
  (n < 62)%nat ->
  exists c, String.get n chars = Some c /\ in_chars c = true /\ Js.is_alnum c = true.
Proof.
  intros H.
  do 62 (destruct n as [|n]; [eexists; repeat split; reflexivity|]).
  lia.
Qed.

Lemma chars_index (i : Z) :
  0 <= i < 62 ->
  exists c, Js.index chars i = Some c /\ in_chars c = true /\ Js.is_alnum c = true.
Proof.
  intros H. unfold Js.index.
  destruct (Z.ltb_spec i 0); [lia|]. apply chars_get. lia.
Qed.

(** The loop of [generateCode] appends [remaining] units of the alphabet
    and takes as many draws; it sends nothing to the store. *)
Lemma generateCode_from_spec (rnd : nat -> Q) (remaining : nat) :
  in_unit_interval rnd ->
  forall out w,
  exists s,
    generateCode_from rnd out remaining w
    = (Ok (out ++ s), mkWorld (links w) (sent w) (draws w + remaining)) /\
    String.length s = remaining /\
    Js.forallb in_chars s = true /\
    Js.forallb Js.is_alnum s = true.
Proof.
  intros Hr. induction remaining as [|n IH]; intros out w.
  - exists "". simpl. unfold ret. rewrite append_empty_r, Nat.add_0_r.
    destruct w. repeat split.
  - destruct (Hr (draws w)) as [H0 H1].
    destruct (chars_index _ (random_index_range _ H0 H1)) as (c & Hc & Hin & Hal).
    simpl. unfold bind, Math_random. rewrite Hc. simpl.
    destruct (IH (out ++ String c "") (mkWorld (links w) (sent w) (S (draws w))))
      as (s & E & Hlen & Hs1 & Hs2).
    exists (String c s). rewrite E. simpl. rewrite append_assoc. simpl.
    rewrite Hin, Hal, Hs1, Hs2, Hlen. repeat split.
    f_equal. f_equal. lia.
Qed.

Lemma generated_code_matches (s : string) :
  String.length s = 6%nat -> Js.forallb Js.is_alnum s = true -> CODE_REGEX_test s = true.
Proof. intros Hl Ha. unfold CODE_REGEX_test. now rewrite Hl, Ha. Qed.

Lemma create_link_generates (hp : string -> bool -> option string) (rnd : nat -> Q)
  (now : Z) (req : Request) (w : World) (url : string) :
  body_url req = Some url ->
  isValidUrl hp url = true ->
  Js.falsy (body_code req) = true ->
  create_link hp rnd now req w =
  try_catch
    (code <- generateCode rnd 6 ;;
     result <- db_query now (InsertLink code url) ;;
     ret (SendJson 201 (JObject (hd_error (rows result)))))
    (fun err =>
       if is_unique_violation err then ret (SendJson 409 (JError "Code already exists"))
       else ret internal_server_error_json) w.
Proof.
  intros Hu Hv Hf. unfold create_link. rewrite Hu.
  rewrite (isValidUrl_nonempty _ _ Hv), Hv, Hf. simpl.
  destruct (body_code req) as [c|]; [|reflexivity].
  simpl in Hf. now rewrite Hf.
Qed.

(** C6 (amended): for a valid URL and an omitted (absent or empty) code,
    POST /api/links generates a code of 6 units of the 62-character
    alphabet, which matches the code pattern.  When no row is stored
    under the generated code it answers 201 with the new record, whose
    [total_clicks] is 0 and whose [last_clicked] is null, and appends
    that row to the table; when a row is already stored under it, it
    answers 409 and leaves the table as it was. *)
Theorem create_link_generated_code (hp : string -> bool -> option string) (rnd : nat -> Q)
  (now : Z) (req : Request) (w : World) (url : string) :
  in_unit_interval rnd ->
  body_url req = Some url ->
  isValidUrl hp url = true ->
  Js.falsy (body_code req) = true ->
  exists code,
    fst (generateCode rnd 6 w) = Ok code /\
    String.length code = 6%nat /\
    Js.forallb in_chars code = true /\
    CODE_REGEX_test code = true /\
    match row_of code (links w) with
    | None =>
        fst (create_link hp rnd now req w)
        = Ok (SendJson 201
                (JObject (Some [(Ccode, VText code); (Ctarget_url, VText url);
                                (Ctotal_clicks, VInt 0); (Clast_clicked, VNull)]))) /\
        links (snd (create_link hp rnd now req w))
        = (links w ++ [mkRow code url 0 None now])%list
    | Some _ =>
        fst (create_link hp rnd now req w)
        = Ok (SendJson 409 (JError "Code already exists")) /\
        links (snd (create_link hp rnd now req w)) = links w
    end.
Proof.
  intros Hr Hu Hv Hf.
  rewrite (create_link_generates hp rnd now req w url Hu Hv Hf).
  destruct (generateCode_from_spec rnd 6 Hr "" w) as (s & E & Hlen & Hin & Hal).
  change ("" ++ s) with s in E. fold (generateCode rnd 6) in E.
  exists s. rewrite E.
  split; [reflexivity|]. split; [exact Hlen|]. split; [exact Hin|].
  split; [now apply generated_code_matches|].
  unfold try_catch, bind. rewrite E. unfold db_query. simpl.
  destruct (row_of s (links w)) as [r|] eqn:Hrow.
  - rewrite (row_of_some_existsb _ _ _ Hrow). simpl. split; reflexivity.
  - apply row_of_none_existsb in Hrow. rewrite Hrow. simpl. split; reflexivity.
Qed.

Lemma zero_draws_in_unit_interval : in_unit_interval zero_draws.
Proof. intros i. unfold zero_draws. split; [apply Qle_refl | reflexivity]. Qed.

Lemma create_link_generated_code_witness :
  exists code,
    fst (generateCode zero_draws 6 empty_world) = Ok code /\
    String.length code = 6%nat /\
    Js.forallb in_chars code = true /\
    CODE_REGEX_test code = true /\
    match row_of code (links empty_world) with
    | None =>
        fst (create_link Url.ascii_host_parser zero_draws 200
               (mkRequest "" None (Some "https://example.com") None) empty_world)
        = Ok (SendJson 201
                (JObject (Some [(Ccode, VText code);
                                (Ctarget_url, VText "https://example.com");
                                (Ctotal_clicks, VInt 0); (Clast_clicked, VNull)]))) /\
        links (snd (create_link Url.ascii_host_parser zero_draws 200
                      (mkRequest "" None (Some "https://example.com") None) empty_world))
        = (links empty_world ++ [mkRow code "https://example.com" 0 None 200])%list
    | Some _ =>
        fst (create_link Url.ascii_host_parser zero_draws 200
               (mkRequest "" None (Some "https://example.com") None) empty_world)
        = Ok (SendJson 409 (JError "Code already exists")) /\
        links (snd (create_link Url.ascii_host_parser zero_draws 200
                      (mkRequest "" None (Some "https://example.com") None) empty_world))
        = links empty_world
    end.
Proof.
  apply (create_link_generated_code Url.ascii_host_parser zero_draws 200
           (mkRequest "" None (Some "https://example.com") None) empty_world
           "https://example.com").
  - exact zero_draws_in_unit_interval.
  - reflexivity.
  - reflexivity.
  - reflexivity.
Defined.

(** C6 as stated fails: with the row [AAAAAA] stored and every draw equal
    to 0, the generated code is [AAAAAA] and a request with a valid URL
    and no code is answered 409, not 201. *)
Lemma create_link_generated_collision :
  isValidUrl Url.ascii_host_parser "https://example.com" = true /\
  in_unit_interval zero_draws /\
  fst (create_link Url.ascii_host_parser zero_draws 200
         (mkRequest "" None (Some "https://example.com") None)
         (mkWorld [mkRow "AAAAAA" "https://example.org/" 0 None 100] [] 0))
  = Ok (SendJson 409 (JError "Code already exists")).
Proof.
  split; [reflexivity|]. split; [exact zero_draws_in_unit_interval | reflexivity].
Qed.

(** C2 (amended): for every non-empty code that does not match
    [^[A-Za-z0-9]{6,8}$], POST /api/links with that custom code answers
    400, sends nothing to the store and leaves the world as it was.  (An
    empty code counts as omitted.) *)
Theorem create_link_invalid_code (hp : string -> bool -> option string) (rnd : nat -> Q)
  (now : Z) (req : Request) (w : World) (c : string) :
  body_code req = Some c ->
  Js.is_empty c = false ->
  CODE_REGEX_test c = false ->
  (exists msg, fst (create_link hp rnd now req w) = Ok (SendJson 400 (JError msg))) /\
  snd (create_link hp rnd now req w) = w.
Proof.
  intros Hc Hne Hre. unfold create_link, try_catch.
  destruct (body_url req) as [url|]; [|split; [eexists|]; reflexivity].
  destruct (Js.is_empty url || negb (isValidUrl hp url)); simpl;
    [split; [eexists|]; reflexivity|].
  rewrite Hc. simpl. rewrite Hne, Hre. simpl. split; [eexists|]; reflexivity.
Qed.

Lemma create_link_invalid_code_witness :
  snd (create_link Url.ascii_host_parser zero_draws 200
         (mkRequest "" None (Some "https://example.com") (Some "ab-cd"))
         (mkWorld [sample_row] [] 0))
  = mkWorld [sample_row] [] 0.
Proof.
  apply (create_link_invalid_code Url.ascii_host_parser zero_draws 200
           (mkRequest "" None (Some "https://example.com") (Some "ab-cd"))
           (mkWorld [sample_row] [] 0) "ab-cd"); reflexivity.
Defined.

(** C2 as stated fails at the empty string: it does not match the
    pattern, yet the request is served as one without a code: a code is
    generated, the answer is 201 and a row is inserted. *)
Lemma create_link_empty_code_accepted :
  CODE_REGEX_test "" = false /\
  fst (create_link Url.ascii_host_parser zero_draws 200
         (mkRequest "" None (Some "https://example.com") (Some "")) empty_world)
  = Ok (SendJson 201
          (JObject (Some [(Ccode, VText "AAAAAA");
                          (Ctarget_url, VText "https://example.com");
                          (Ctotal_clicks, VInt 0); (Clast_clicked, VNull)]))) /\
  links (snd (create_link Url.ascii_host_parser zero_draws 200
                (mkRequest "" None (Some "https://example.com") (Some "")) empty_world))
  = [mkRow "AAAAAA" "https://example.com" 0 None 200].
Proof. repeat split. Qed.

(** ** Listing and searching *)

Lemma starts_with_iff q t :
  starts_with q t = true <-> exists post, t = q ++ post.
Proof.
  revert t. induction q as [|c q IH]; intros t; simpl.
  - split; eauto.
  - destruct t as [|e t].
    + split; [discriminate | intros [post H]; discriminate].
    + rewrite andb_true_iff, Ascii.eqb_eq, IH. split.
      * intros [-> [post ->]]. eauto.
      * intros [post [= -> ->]]. eauto.
Qed.

Lemma includes_iff q t :
  includes q t = true <-> exists pre post, t = pre ++ q ++ post.
Proof.
  induction t as [|e t IH]; simpl.
  - rewrite orb_false_r, starts_with_iff. split.
    + intros [post H]. exists "", post. exact H.
    + intros (pre & post & H). destruct pre; [eauto | discriminate].
  - rewrite orb_true_iff. split.
    + intros [H|H].
      * change (starts_with q (String e t) = true) in H.
        apply starts_with_iff in H. destruct H as [post H]. exists "", post. exact H.
      * apply IH in H. destruct H as (pre & post & ->). exists (String e pre), post. reflexivity.
    + intros (pre & post & H). destruct pre as [|x pre].
      * left. change (starts_with q (String e t) = true).
        apply starts_with_iff. eauto.
      * right. apply IH. injection H as _ ->. eauto.
Qed.

Lemma like_percent_step p t :
  like (String "%" p) t
  = like p t || match t with
                | String _ t' => like (String "%" p) t'
                | EmptyString => false
                end.
Proof. destruct t; reflexivity. Qed.

Lemma like_literal_step c p t :
  like_special c = false ->
  like (String c p) t
  = match t with
    | String e t' => Ascii.eqb c e && like p t'
    | EmptyString => false
    end.
Proof.
  unfold like_special. intros H.
  apply orb_false_iff in H as [H H3]. apply orb_false_iff in H as [H1 H2].
  simpl. rewrite H1, H2, H3. reflexivity.
Qed.

Lemma like_percent_all t : like "%" t = true.
Proof.
  induction t as [|e t IH]; [reflexivity|].
  rewrite like_percent_step. rewrite IH. apply orb_true_r.
Qed.



Lemma lower_append a b : Js.lower (a ++ b) = Js.lower a ++ Js.lower b.
Proof. induction a as [|x a IH]; simpl; [reflexivity | now rewrite IH]. Qed.





(** *** ORDER BY created_at DESC *)

Lemma insert_desc_perm r l : Permutation (insert_desc r l) (r :: l).
Proof.
  induction l as [|x l IH]; simpl; [reflexivity|].
  destruct (created_at x <=? created_at r)%Z; [reflexivity|].
  rewrite IH. apply perm_swap.
Qed.

Lemma insert_desc_sorted r l : newest_first l -> newest_first (insert_desc r l).
Proof.
  unfold newest_first. induction l as [|x l IH]; intros S; simpl.
  - constructor; constructor.
  - apply StronglySorted_inv in S as [S F].
    destruct (Z.leb_spec (created_at x) (created_at r)) as [L|G].
    + constructor; [constructor; assumption|].
      constructor; [lia|].
      eapply Forall_impl; [|exact F]. simpl. intros y Hy. lia.
    + constructor; [now apply IH|].
      apply (Permutation_Forall (Permutation_sym (insert_desc_perm r l))).
      constructor; [lia | exact F].
Qed.

Lemma order_by_perm t : Permutation (order_by_created_at_desc t) t.
Proof.
  induction t as [|x t IH]; simpl; [reflexivity|].
  rewrite insert_desc_perm. now constructor.
Qed.

Lemma order_by_sorted t : newest_first (order_by_created_at_desc t).
Proof.
  induction t as [|x t IH]; simpl; [constructor|].
  now apply insert_desc_sorted.
Qed.





(** A query with a LIKE character is not a substring test: [_] matches
    any character, so the dashboard shows a row that contains no
    underscore. *)
Example dashboard_wildcard_query :
  contains_ci "_" (code sample_row) = false /\
  contains_ci "_" (target_url sample_row) = false /\
  fst (dashboard 200 (mkRequest "" (Some "_") None None) (mkWorld [sample_row] [] 0))
  = Ok (RenderDashboard [project link_columns sample_row] "_").
Proof. repeat split. Qed.

(** ** The URL validator *)

Section UrlFacts.

Variable hp : string -> bool -> option string.

Lemma port_done_keeps u buffer input u' :
  Url.port_done u buffer input = Some u' ->
  Url.scheme u' = Url.scheme u /\ Url.host u' = Url.host u.
Proof.
  unfold Url.port_done, Url.path_start_state.
  destruct (Js.is_empty buffer); [intros [= <-]; tauto|].
  destruct (65535 <? Url.decimal 0 buffer)%Z; [discriminate|].
  intros [= <-]. simpl. tauto.
Qed.

Lemma port_state_keeps special u buffer input u' :
  Url.port_state special u buffer input = Some u' ->
  Url.scheme u' = Url.scheme u /\ Url.host u' = Url.host u.
Proof.
  revert buffer. induction input as [|c rest IH]; intros buffer; simpl.
  - apply port_done_keeps.
  - destruct (Js.is_digit c); [apply IH|].
    destruct (Url.ends_authority special c); [apply port_done_keeps | discriminate].
Qed.

Lemma host_done_with_host special u buffer input u' :
  Url.host_done hp special u buffer input = Some u' -> with_host u u'.
Proof.
  unfold Url.host_done, Url.path_start_state, with_host.
  destruct (special && Js.is_empty buffer); [discriminate|].
  destruct (hp buffer (negb special)); [|discriminate].
  intros [= <-]. simpl. split; [reflexivity | discriminate].
Qed.

Lemma host_state_with_host special u buffer inside input u' :
  Url.host_state hp special u buffer inside input = Some u' -> with_host u u'.
Proof.
  revert buffer inside. induction input as [|c rest IH]; intros buffer inside; simpl.
  - apply host_done_with_host.
  - destruct (Ascii.eqb c ":" && negb inside).
    + destruct (Js.is_empty buffer); [discriminate|].
      destruct (hp buffer (negb special)) as [h|]; [|discriminate].
      intros H. apply port_state_keeps in H as [H1 H2]. simpl in *.
      split; [exact H1 | rewrite H2; discriminate].
    + destruct (Url.ends_authority special c); [apply host_done_with_host | apply IH].
Qed.

Lemma authority_state_with_host special u seen buffer start input u' :
  Url.authority_state hp special u seen buffer start input = Some u' -> with_host u u'.
Proof.
  assert (D : forall seen buffer start,
             Url.authority_done hp special u seen buffer start = Some u' -> with_host u u').
  { intros s b st. unfold Url.authority_done.
    destruct (s && Js.is_empty b); [discriminate | apply host_state_with_host]. }
  revert seen buffer start. induction input as [|c rest IH]; intros seen buffer start; simpl.
  - apply D.
  - destruct (Ascii.eqb c "@"); [apply IH|].
    destruct (Url.ends_authority special c); [apply D | apply IH].
Qed.

Lemma ignore_slashes_with_host u input u' :
  Url.special_authority_ignore_slashes_state hp u input = Some u' -> with_host u u'.
Proof.
  induction input as [|c rest IH].
  - apply (authority_state_with_host true u false "" "" "").
  - cbn [Url.special_authority_ignore_slashes_state].
    destruct (Url.is_slash c); [exact IH | apply authority_state_with_host].
Qed.

Lemma special_slashes_with_host u input u' :
  Url.special_authority_slashes_state hp u input = Some u' -> with_host u u'.
Proof.
  unfold Url.special_authority_slashes_state.
  destruct input as [|c [|d rest]]; try apply ignore_slashes_with_host.
  destruct (Ascii.eqb c "/" && Ascii.eqb d "/"); apply ignore_slashes_with_host.
Qed.

Lemma file_host_done_with_host u buffer input u' :
  Url.host u <> None ->
  Url.file_host_done hp u buffer input = Some u' -> with_host u u'.
Proof.
  intros Hu. unfold Url.file_host_done, Url.path_state, Url.path_start_state, with_host.
  destruct (Url.is_windows_drive_letter buffer); [intros [= <-]; tauto|].
  destruct (Js.is_empty buffer); [intros [= <-]; simpl; split; [reflexivity | discriminate]|].
  destruct (hp buffer false); [|discriminate].
  intros [= <-]. simpl. split; [reflexivity | discriminate].
Qed.

Lemma file_host_state_with_host u buffer input u' :
  Url.host u <> None ->
  Url.file_host_state hp u buffer input = Some u' -> with_host u u'.
Proof.
  intros Hu. revert buffer. induction input as [|c rest IH]; intros buffer.
  - now apply file_host_done_with_host.
  - cbn [Url.file_host_state].
    destruct (Url.is_slash c || Ascii.eqb c "?" || Ascii.eqb c "#");
      [now apply file_host_done_with_host | apply IH].
Qed.

Lemma file_state_with_host u input u' :
  Url.file_state hp u input = Some u' -> with_host u u'.
Proof.
  unfold Url.file_state, Url.file_slash_state, Url.path_state.
  assert (K : with_host u (Url.set_host u "")).
  { split; [reflexivity | discriminate]. }
  destruct input as [|c rest]; [intros [= <-]; exact K|].
  destruct (Url.is_slash c); [|intros [= <-]; exact K].
  destruct rest as [|d rest]; [intros [= <-]; exact K|].
  destruct (Url.is_slash d); [|intros [= <-]; exact K].
  intros H. apply file_host_state_with_host in H; [|discriminate].
  destruct H as [H1 H2]. split; [exact H1 | exact H2].
Qed.

Lemma not_special_not_file b : Url.is_special b = false -> String.eqb b "file" = false.
Proof.
  intros H. destruct (String.eqb_spec b "file") as [->|]; [discriminate | reflexivity].
Qed.

(** The scheme decides whether an authority is needed: a parsed URL has
    no host exactly when its scheme is not special and the colon is not
    followed by two slashes. *)
Lemma scheme_done_spec b rest u :
  Url.scheme_done hp b rest = Some u ->
  Url.scheme u = b /\
  (Url.host u = None <-> Url.is_special b = false /\ starts_with "//" rest = false).
Proof.
  unfold Url.scheme_done.
  assert (W : forall u0, with_host (Url.mkURL b None None) u0 ->
              Url.is_special b = true ->
              Url.scheme u0 = b /\
              (Url.host u0 = None
               <-> Url.is_special b = false /\ starts_with "//" rest = false)).
  { intros u0 [H1 H2] Hs. split; [exact H1|]. rewrite Hs. split; [tauto | intros [? _]; discriminate]. }
  destruct (String.eqb_spec b "file") as [->|Nf].
  - intros H. apply W; [now apply file_state_with_host in H | reflexivity].
  - destruct (Url.is_special b) eqn:Hs.
    + intros H. apply W; [now apply special_slashes_with_host in H | reflexivity].
    + unfold Url.opaque_path_state, Url.path_or_authority_state, Url.path_state.
      destruct rest as [|c rest]; [intros [= <-]; simpl; tauto|].
      cbn [starts_with]. rewrite (Ascii.eqb_sym "/" c).
      destruct (Ascii.eqb c "/"); [|intros [= <-]; simpl; tauto].
      destruct rest as [|d rest]; [intros [= <-]; simpl; tauto|].
      rewrite (Ascii.eqb_sym "/" d).
      destruct (Ascii.eqb d "/"); [|intros [= <-]; simpl; tauto].
      intros H. apply authority_state_with_host in H as [H1 H2].
      split; [exact H1|]. simpl. split; [tauto | intros [_ ?]; discriminate].
Qed.

(** Without a special scheme and without two slashes after the colon no
    state can fail. *)
Lemma scheme_done_no_authority b rest :
  Url.is_special b = false ->
  starts_with "//" rest = false ->
  Url.scheme_done hp b rest = Some (Url.mkURL b None None).
Proof.
  intros Hs Hr. unfold Url.scheme_done.
  rewrite (not_special_not_file _ Hs), Hs.
  unfold Url.opaque_path_state, Url.path_or_authority_state, Url.path_state.
  destruct rest as [|c rest]; [reflexivity|].
  cbn [starts_with] in Hr. rewrite (Ascii.eqb_sym "/" c) in Hr.
  destruct (Ascii.eqb c "/"); [|reflexivity].
  destruct rest as [|d rest]; [reflexivity|].
  rewrite (Ascii.eqb_sym "/" d) in Hr.
  destruct (Ascii.eqb d "/"); [discriminate | reflexivity].
Qed.

Lemma scheme_state_inv buffer input u :
  Url.scheme_state hp buffer input = Some u ->
  exists sch rest,
    input = sch ++ ":" ++ rest /\
    Js.forallb Url.is_scheme_unit sch = true /\
    Url.scheme_done hp (buffer ++ Js.lower sch) rest = Some u.
Proof.
  revert buffer. induction input as [|c rest IH]; intros buffer.
  - discriminate.
  - cbn [Url.scheme_state]. destruct (Url.is_scheme_unit c) eqn:Hc.
    + intros H. apply IH in H as (sch & rest' & -> & Hs & Hd).
      exists (String c sch), rest'. simpl. rewrite Hc, Hs.
      repeat split. rewrite append_assoc in Hd. exact Hd.
    + destruct (Ascii.eqb_spec c ":") as [->|N]; [|discriminate].
      intros H. exists "", rest. simpl. rewrite append_empty_r. tauto.
Qed.

Lemma scheme_state_run buffer sch rest :
  Js.forallb Url.is_scheme_unit sch = true ->
  Url.scheme_state hp buffer (sch ++ ":" ++ rest)
  = Url.scheme_done hp (buffer ++ Js.lower sch) rest.
Proof.
  revert buffer. induction sch as [|c sch IH]; intros buffer H.
  - simpl. now rewrite append_empty_r.
  - simpl in H. apply andb_true_iff in H as [Hc Hs].
    change (String c sch ++ ":" ++ rest) with (String c (sch ++ ":" ++ rest)).
    cbn [Url.scheme_state]. rewrite Hc, (IH _ Hs), append_assoc. reflexivity.
Qed.

Lemma scheme_start_inv input u :
  Url.scheme_start_state hp input = Some u ->
  exists sch rest,
    input = sch ++ ":" ++ rest /\
    is_scheme sch = true /\
    Url.scheme_done hp (Js.lower sch) rest = Some u.
Proof.
  unfold Url.scheme_start_state. destruct input as [|c input]; [discriminate|].
  destruct (Js.is_alpha c) eqn:Hc; [|discriminate].
  intros H. apply scheme_state_inv in H as (sch & rest & -> & Hs & Hd).
  exists (String c sch), rest. simpl. rewrite Hc, Hs. tauto.
Qed.

Lemma scheme_start_run sch rest :
  is_scheme sch = true ->
  Url.scheme_start_state hp (sch ++ ":" ++ rest)
  = Url.scheme_done hp (Js.lower sch) rest.
Proof.
  destruct sch as [|c sch]; [discriminate|].
  intros H. simpl in H. apply andb_true_iff in H as [Hc Hs].
  change (String c sch ++ ":" ++ rest) with (String c (sch ++ ":" ++ rest)).
  unfold Url.scheme_start_state. rewrite Hc, (scheme_state_run _ _ _ Hs). reflexivity.
Qed.

End UrlFacts.

(** The machine on a few inputs, with the host parser for plain ASCII
    names: a web address, the same without scheme, a special scheme
    without host, credentials and a port, a port out of range, and a
    scheme with an opaque path. *)
Example new_URL_samples :
  map (Url.new_URL Url.ascii_host_parser)
    ["https://example.com"; "example.com"; "http://"; "https://user:pw@Example.COM:8443/a?b#c";
     "http://example.com:65536/"; "tel:+15551234"]
  = [Some (Url.mkURL "https" (Some "example.com") None); None; None;
     Some (Url.mkURL "https" (Some "example.com") (Some 8443));
     None; Some (Url.mkURL "tel" None None)].
Proof. reflexivity. Qed.

(** C8 (amended): [isValidUrl] accepts a string exactly when [new URL]
    parses it.  Every accepted string has a scheme: once trimmed, it is
    a scheme, a colon and a rest.  An authority is not required: the
    parsed URL has no host exactly when the scheme is not special and
    the rest does not start with two slashes, and every string of that
    shape is accepted whatever follows the colon (a [mailto:] URI, for
    one).  The empty string is rejected, and POST /api/links answers 400
    when [url] is absent or empty. *)
Theorem isValidUrl_spec (hp : string -> bool -> option string) (str : string) :
  (isValidUrl hp str = true <-> exists u, Url.new_URL hp str = Some u) /\
  (forall u, Url.new_URL hp str = Some u ->
     exists sch rest,
       Url.preprocess str = sch ++ ":" ++ rest /\
       is_scheme sch = true /\
       Url.scheme u = Js.lower sch /\
       (Url.host u = None
        <-> Url.is_special (Js.lower sch) = false /\ starts_with "//" rest = false)) /\
  (forall sch rest,
     Url.preprocess str = sch ++ ":" ++ rest ->
     is_scheme sch = true ->
     Url.is_special (Js.lower sch) = false ->
     starts_with "//" rest = false ->
     Url.new_URL hp str = Some (Url.mkURL (Js.lower sch) None None)) /\
  isValidUrl hp "" = false /\
  (forall rnd now req w,
     Js.falsy (body_url req) = true ->
     fst (create_link hp rnd now req w) = Ok (SendJson 400 (JError "Invalid or missing URL")) /\
     snd (create_link hp rnd now req w) = w).
Proof.
  split; [|split; [|split; [|split]]].
  - unfold isValidUrl. destruct (Url.new_URL hp str) as [u|].
    + split; eauto.
    + split; [discriminate | intros [u H]; discriminate].
  - intros u H. unfold Url.new_URL, Url.basic_URL_parser in H.
    apply scheme_start_inv in H as (sch & rest & E & Hs & Hd).
    apply scheme_done_spec in Hd as [H1 H2].
    exists sch, rest. tauto.
  - intros sch rest E Hs Hsp Hr. unfold Url.new_URL, Url.basic_URL_parser.
    rewrite E, (scheme_start_run hp _ _ Hs). now apply scheme_done_no_authority.
  - reflexivity.
  - intros rnd now req w H. unfold create_link, try_catch.
    destruct (body_url req) as [url|]; [|split; reflexivity].
    simpl in H. rewrite H. simpl. split; reflexivity.
Qed.

Lemma isValidUrl_spec_witness :
  Url.new_URL Url.ascii_host_parser "  javascript:alert(1) "
  = Some (Url.mkURL (Js.lower "javascript") None None).
Proof.
  apply (proj1 (proj2 (proj2 (isValidUrl_spec Url.ascii_host_parser "  javascript:alert(1) ")))
           "javascript" "alert(1)"); reflexivity.
Defined.

(** C8 as stated fails: a [mailto:] URI has a scheme and no authority,
    and the validator accepts it; POST /api/links stores it. *)
Lemma isValidUrl_accepts_mailto :
  isValidUrl Url.ascii_host_parser "mailto:someone@example.com" = true /\
  Url.new_URL Url.ascii_host_parser "mailto:someone@example.com"
  = Some (Url.mkURL "mailto" None None) /\
  fst (create_link Url.ascii_host_parser zero_draws 200
         (mkRequest "" None (Some "mailto:someone@example.com") (Some "mailme")) empty_world)
  = Ok (SendJson 201
          (JObject (Some [(Ccode, VText "mailme");
                          (Ctarget_url, VText "mailto:someone@example.com");
                          (Ctotal_clicks, VInt 0); (Clast_clicked, VNull)]))).
Proof. repeat split. Qed.

(** ** Rows across a sequence of requests *)

Lemma generateCode_from_links (rnd : nat -> Q) (remaining : nat) :
  forall out w,
  exists s,
    generateCode_from rnd out remaining w
    = (Ok s, mkWorld (links w) (sent w) (draws w + remaining)).
Proof.
  induction remaining as [|n IH]; intros out w.
  - exists out. simpl. unfold ret. rewrite Nat.add_0_r. now destruct w.
  - cbn [generateCode_from]. unfold bind, Math_random.
    destruct (IH (Js.append_unit out (Js.index chars (random_index (rnd (draws w)))))
                (mkWorld (links w) (sent w) (S (draws w)))) as [s E].
    exists s. rewrite E. simpl. f_equal. f_equal. lia.
Qed.

Lemma insert_appended (now : Z) (c url : string) (w : World) (k : QueryResult -> M Response)
  (handler : Exn -> M Response) :
  (forall result w', links (snd (k result w')) = links w') ->
  (forall e w', links (snd (handler e w')) = links w') ->
  appended (links w)
    (links (snd (try_catch (result <- db_query now (InsertLink c url) ;; k result) handler w))).
Proof.
  intros Hk Hh. unfold try_catch, bind, db_query. simpl.
  destruct (existsb (code_is c) (links w)) eqn:E.
  - left. rewrite Hh. reflexivity.
  - right. exists (mkRow c url 0 None now).
    destruct (k _ _) as [[resp|e] w'] eqn:K;
      match type of K with k ?a ?b = _ => pose proof (Hk a b) as L end;
      rewrite K in L; simpl in L.
    + simpl. rewrite L. repeat split. now apply row_of_none_existsb.
    + rewrite Hh, L. repeat split. now apply row_of_none_existsb.
Qed.

Lemma create_link_appended (hp : string -> bool -> option string) (rnd : nat -> Q)
  (now : Z) (req : Request) (w : World) :
  appended (links w) (links (snd (create_link hp rnd now req w))).
Proof.
  set (handler := fun err : Exn =>
         if is_unique_violation err then ret (SendJson 409 (JError "Code already exists"))
         else ret internal_server_error_json).
  assert (Hh : forall e w', links (snd (handler e w')) = links w').
  { intros e w'. unfold handler. now destruct (is_unique_violation e). }
  assert (G : forall url w0,
             links w0 = links w ->
             appended (links w)
               (links (snd (try_catch
                  (code <- generateCode rnd 6 ;;
                   result <- db_query now (InsertLink code url) ;;
                   ret (SendJson 201 (JObject (hd_error (rows result))))) handler w0)))).
  { intros url w0 E0. destruct (generateCode_from_links rnd 6 "" w0) as [s E].
    fold (generateCode rnd 6) in E.
    pose proof (insert_appended now s url
                  (mkWorld (links w0) (sent w0) (draws w0 + 6))
                  (fun result => ret (SendJson 201 (JObject (hd_error (rows result)))))
                  handler (fun _ _ => eq_refl) Hh) as A.
    unfold try_catch, bind in *. rewrite E. simpl in A. rewrite <- E0. exact A. }
  unfold create_link. fold handler.
  destruct (body_url req) as [url|]; [|left; reflexivity].
  destruct (Js.is_empty url || negb (isValidUrl hp url)); [left; reflexivity|].
  destruct (body_code req) as [c|].
  - simpl. destruct (Js.is_empty c) eqn:Ec; simpl.
    + apply G. reflexivity.
    + destruct (CODE_REGEX_test c); simpl; [|left; reflexivity].
      apply (insert_appended now c url w
               (fun result => ret (SendJson 201 (JObject (hd_error (rows result)))))
               handler (fun _ _ => eq_refl) Hh).
  - simpl. apply G. reflexivity.
Qed.

Lemma clicks_on_nonneg k cs : 0 <= clicks_on k cs.
Proof.
  induction cs as [|c cs IH]; simpl; [lia|].
  destruct (clicks k c); lia.
Qed.

Section Steps.

Variable hp : string -> bool -> option string.
Variable rnd : nat -> Q.

(** One request and the row stored under [k]: a DELETE of [k] removes
    it, a redirect of [k] clicks it, and every other request leaves it
    as it is. *)
Lemma serve_row (c : Call) (w : World) (k : string) (r : Row) :
  row_of k (links w) = Some r ->
  row_of k (links (snd (serve hp rnd c w)))
  = if deletes k c then None
    else if clicks k c then Some (click (at_time c) r)
    else Some r.
Proof.
  intros H. destruct c as [rt now req]. unfold serve, deletes, clicks. simpl.
  destruct rt; simpl.
  - exact H.
  - unfold dashboard, try_catch, bind, db_query.
    destruct (negb (Js.is_empty _)); exact H.
  - unfold stats_page, try_catch, bind, db_query. simpl.
    destruct (_ =? 0)%nat; exact H.
  - destruct (create_link_appended hp rnd now req w) as [E|(r' & E & Hn & _)];
      rewrite E; [exact H|].
    rewrite row_of_inserted, H. reflexivity.
  - exact H.
  - unfold get_link, try_catch, bind, db_query. simpl.
    destruct (_ =? 0)%nat; exact H.
  - assert (E : links (snd (delete_link now req w))
                = filter (fun x => negb (code_is (param_code req) x)) (links w)).
    { unfold delete_link, try_catch, bind, db_query. simpl.
      destruct (_ =? 0)%nat; reflexivity. }
    rewrite E, row_of_deleted.
    destruct (String.eqb k (param_code req)); [reflexivity | exact H].
  - destruct (row_of (param_code req) (links w)) as [r0|] eqn:Hp.
    + destruct (row_of_some_filter _ _ _ Hp) as [l Hl].
      unfold redirect, try_catch, bind, db_query. simpl. rewrite Hl. simpl.
      rewrite row_of_clicked, H.
      destruct (String.eqb k (param_code req)); reflexivity.
    + rewrite (redirect_miss now req w Hp).
      destruct (String.eqb_spec k (param_code req)) as [->|N]; [congruence | exact H].
Qed.

End Steps.

(** C9: take any sequence of requests (any routes, any arguments, any
    times) that does not delete the code [k], and a table that holds a
    row under [k].  At the end the table still holds a row under [k];
    its [target_url] is the one it started with, and its [total_clicks]
    is the starting value plus the number of redirects of [k] in the
    sequence, so it never decreases and no other request changes it. *)
Theorem rows_over_time (hp : string -> bool -> option string) (rnd : nat -> Q)
  (cs : list Call) (w : World) (k : string) (r : Row) :
  row_of k (links w) = Some r ->
  forallb (fun c => negb (deletes k c)) cs = true ->
  exists r',
    row_of k (links (serve_all hp rnd cs w)) = Some r' /\
    target_url r' = target_url r /\
    total_clicks r' = total_clicks r + clicks_on k cs /\
    total_clicks r <= total_clicks r' /\
    code r' = code r /\ created_at r' = created_at r.
Proof.
  revert w r. induction cs as [|c cs IH]; intros w r H D.
  - exists r. simpl. repeat split; [exact H | lia | lia].
  - simpl in D. apply andb_true_iff in D as [Dc D]. apply negb_true_iff in Dc.
    pose proof (serve_row hp rnd c w k r H) as S. rewrite Dc in S.
    cbn [serve_all clicks_on]. pose proof (clicks_on_nonneg k cs) as N.
    destruct (clicks k c).
    + destruct (IH _ _ S D) as (r' & Hr & Hu & Hn & Hle & Hc & Ht).
      simpl in Hu, Hn, Hle, Hc, Ht.
      exists r'. repeat split; try assumption; lia.
    + destruct (IH _ _ S D) as (r' & Hr & Hu & Hn & Hle & Hc & Ht).
      exists r'. repeat split; try assumption; lia.
Qed.

Lemma rows_over_time_witness :
  exists r',
    row_of "abc123"
      (links (serve_all Url.ascii_host_parser zero_draws sample_calls
                (mkWorld [sample_row] [] 0))) = Some r' /\
    target_url r' = target_url sample_row /\
    total_clicks r' = total_clicks sample_row + clicks_on "abc123" sample_calls /\
    total_clicks sample_row <= total_clicks r' /\
    code r' = code sample_row /\ created_at r' = created_at sample_row.
Proof.
  apply (rows_over_time Url.ascii_host_parser zero_draws sample_calls
           (mkWorld [sample_row] [] 0) "abc123" sample_row); reflexivity.
Defined.

(** ** Codes stay unique *)

Lemma execute_unique_codes (now : Z) (q : Query) (t : Table) :
  unique_codes t -> unique_codes (snd (execute now q t)).
Proof.
  unfold unique_codes. intros U. destruct q; simpl; try exact U.
  - destruct (existsb (code_is c) t) eqn:E; simpl; [exact U|].
    rewrite map_app. simpl.
    apply NoDup_incl_NoDup with (l := c :: map code t).
    + constructor; [|exact U]. intros Hin. apply in_map_iff in Hin as (x & Hx & Hi).
      assert (F : existsb (code_is c) t = true).
      { apply existsb_exists. exists x. split; [exact Hi | now apply code_is_true]. }
      congruence.
    + rewrite length_app. simpl. lia.
    + intros x [<-|Hx]; apply in_or_app; [right; now left | now left].
  - rewrite map_map.
    erewrite map_ext; [exact U|].
    intros x. simpl. now destruct (code_is c x).
  - induction t as [|x t IH]; simpl; [constructor|].
    apply NoDup_cons_iff in U as [Hn U].
    destruct (code_is c x); simpl; [now apply IH|].
    constructor; [|now apply IH].
    intros Hin. apply Hn. apply in_map_iff in Hin as (y & Hy & Hi).
    apply filter_In in Hi as [Hi _]. apply in_map_iff. eauto.
Qed.

Lemma keeps_ret {A} (a : A) : keeps_unique (ret a).
Proof. intros w U. exact U. Qed.

Lemma keeps_throw {A} (e : Exn) : keeps_unique (@throw A e).
Proof. intros w U. exact U. Qed.

Lemma keeps_bind {A B} (m : M A) (k : A -> M B) :
  keeps_unique m -> (forall a, keeps_unique (k a)) -> keeps_unique (bind m k).
Proof.
  intros Hm Hk w U. unfold bind. specialize (Hm w U).
  destruct (m w) as [[a|e] w']; simpl in *; [now apply Hk | exact Hm].
Qed.

Lemma keeps_try_catch {A} (m : M A) (h : Exn -> M A) :
  keeps_unique m -> (forall e, keeps_unique (h e)) -> keeps_unique (try_catch m h).
Proof.
  intros Hm Hh w U. unfold try_catch. specialize (Hm w U).
  destruct (m w) as [[a|e] w']; simpl in *; [exact Hm | now apply Hh].
Qed.

Lemma keeps_db_query (now : Z) (q : Query) : keeps_unique (db_query now q).
Proof.
  intros w U. unfold db_query.
  pose proof (execute_unique_codes now q (links w) U) as E.
  destruct (execute now q (links w)) as [[e|res] t]; exact E.
Qed.

Lemma keeps_generateCode (rnd : nat -> Q) (n : nat) : keeps_unique (generateCode rnd n).
Proof.
  intros w U. unfold generateCode.
  destruct (generateCode_from_links rnd n "" w) as [s E]. rewrite E. exact U.
Qed.

Ltac keeps_step :=
  first
    [ apply keeps_ret
    | apply keeps_throw
    | apply keeps_db_query
    | apply keeps_generateCode
    | apply keeps_bind; [|intros ?]
    | apply keeps_try_catch; [|intros ?]
    | match goal with
      | |- keeps_unique (if ?b then _ else _) => destruct b
      | |- keeps_unique (match ?x with _ => _ end) => destruct x
      end ].

Lemma handler_keeps_unique (hp : string -> bool -> option string) (rnd : nat -> Q)
  (rt : Route) (now : Z) (req : Request) :
  keeps_unique (handler hp rnd rt now req).
Proof.
  destruct rt; simpl;
    unfold healthz, dashboard, stats_page, create_link, list_links, get_link,
      delete_link, redirect;
    repeat keeps_step.
Qed.

(** Every table reached from one with unique codes, and so every table
    reached from the empty one, has unique codes. *)
Lemma serve_all_unique_codes (hp : string -> bool -> option string) (rnd : nat -> Q)
  (cs : list Call) (w : World) :
  unique_codes (links w) -> unique_codes (links (serve_all hp rnd cs w)).
Proof.
  revert w. induction cs as [|c cs IH]; intros w U; simpl; [exact U|].
  apply IH. apply (handler_keeps_unique hp rnd (route c) (at_time c) (request c) w U).
Qed.

Lemma reachable_unique_codes (hp : string -> bool -> option string) (rnd : nat -> Q)
  (cs : list Call) :
  unique_codes (links (serve_all hp rnd cs empty_world)).
Proof. apply serve_all_unique_codes. constructor. Qed.

(** * Further properties of the routes *)

(** ** What POST /api/links decides *)

Lemma chosen_code_runs (rnd : nat -> Q) (req : Request) (w : World) :
  exists c w0,
    chosen_code rnd req w = (Ok c, w0) /\ links w0 = links w /\ sent w0 = sent w.
Proof.
  assert (G : exists c w0,
             generateCode rnd 6 w = (Ok c, w0) /\ links w0 = links w /\ sent w0 = sent w).
  { destruct (generateCode_from_links rnd 6 "" w) as [s E].
    exists s. eexists. split; [exact E | split; reflexivity]. }
  unfold chosen_code. destruct (body_code req) as [c|]; [|exact G].
  destruct (Js.is_empty c); [exact G|].
  exists c, w. repeat split.
Qed.

(** A request that passes both validations sends one INSERT of the
    chosen code; the answer follows from whether the code is stored. *)
Lemma create_link_valid (hp : string -> bool -> option string) (rnd : nat -> Q)
  (now : Z) (req : Request) (w : World) (url c : string) (w0 : World) :
  body_url req = Some url ->
  url_ok hp req = true ->
  code_ok req = true ->
  chosen_code rnd req w = (Ok c, w0) ->
  create_link hp rnd now req w
  = if existsb (code_is c) (links w0)
    then (Ok conflict, mkWorld (links w0) (sent w0 ++ [InsertLink c url])%list (draws w0))
    else (Ok (created c url now),
          mkWorld (links w0 ++ [new_row c url now])%list
            (sent w0 ++ [InsertLink c url])%list (draws w0)).
Proof.
  intros Hu Hok Hc Hch. unfold url_ok in Hok. rewrite Hu in Hok.
  apply andb_true_iff in Hok as [Hne Hv]. apply negb_true_iff in Hne.
  unfold create_link, try_catch. rewrite Hu, Hne, Hv. simpl.
  unfold code_ok in Hc. unfold chosen_code in Hch.
  destruct (body_code req) as [c0|]; simpl.
  - destruct (Js.is_empty c0) eqn:E; simpl.
    + unfold bind. rewrite Hch. unfold db_query. simpl.
      destruct (existsb (code_is c) (links w0)); reflexivity.
    + simpl in Hc. rewrite Hc. simpl. unfold bind. rewrite Hch.
      unfold db_query. simpl.
      destruct (existsb (code_is c) (links w0)); reflexivity.
  - unfold bind. rewrite Hch. unfold db_query. simpl.
    destruct (existsb (code_is c) (links w0)); reflexivity.
Qed.

Lemma existsb_row_of c t :
  existsb (code_is c) t = match row_of c t with Some _ => true | None => false end.
Proof.
  destruct (row_of c t) as [r|] eqn:H.
  - now apply row_of_some_existsb in H.
  - now apply row_of_none_existsb.
Qed.

(** X1: POST /api/links checks the URL first and the code second.  A
    missing, empty or unparsable [url] is answered 400 "Invalid or
    missing URL" whatever the code is; otherwise a non-empty code off
    the pattern is answered 400 with the pattern message; in both cases
    nothing is sent to the store and the world is untouched.  Every
    other request sends exactly one INSERT, of the custom code or of a
    generated one, and is answered 201 with the new row appended when
    that code was free, 409 with the table unchanged when it was
    taken. *)
Theorem create_link_decision (hp : string -> bool -> option string) (rnd : nat -> Q)
  (now : Z) (req : Request) (w : World) :
  if negb (url_ok hp req) then
    create_link hp rnd now req w
    = (Ok (SendJson 400 (JError "Invalid or missing URL")), w)
  else if negb (code_ok req) then
    create_link hp rnd now req w
    = (Ok (SendJson 400 (JError "Custom code must match [A-Za-z0-9]{6,8}")), w)
  else
    exists url c,
      body_url req = Some url /\
      fst (chosen_code rnd req w) = Ok c /\
      sent (snd (create_link hp rnd now req w)) = (sent w ++ [InsertLink c url])%list /\
      match row_of c (links w) with
      | None =>
          fst (create_link hp rnd now req w) = Ok (created c url now) /\
          links (snd (create_link hp rnd now req w)) = (links w ++ [new_row c url now])%list
      | Some _ =>
          fst (create_link hp rnd now req w) = Ok conflict /\
          links (snd (create_link hp rnd now req w)) = links w
      end.
Proof.
  destruct (url_ok hp req) eqn:Hu; simpl.
  - destruct (code_ok req) eqn:Hc; simpl.
    + assert (exists url, body_url req = Some url) as [url Eu].
      { unfold url_ok in Hu. destruct (body_url req); [eauto | discriminate]. }
      destruct (chosen_code_runs rnd req w) as (c & w0 & Ech & El & Es).
      exists url, c. rewrite Ech.
      rewrite (create_link_valid hp rnd now req w url c w0 Eu Hu Hc Ech).
      rewrite El, Es, existsb_row_of.
      destruct (row_of c (links w)); simpl; repeat split; exact Eu.
    + unfold url_ok in Hu. unfold code_ok in Hc. unfold create_link, try_catch.
      destruct (body_url req) as [url|]; [|discriminate].
      apply andb_true_iff in Hu as [Hne Hv]. apply negb_true_iff in Hne.
      rewrite Hne, Hv. simpl.
      destruct (body_code req) as [c|]; [|discriminate].
      apply orb_false_iff in Hc as [Hc1 Hc2]. simpl. rewrite Hc1, Hc2. reflexivity.
  - unfold url_ok in Hu. unfold create_link, try_catch.
    destruct (body_url req) as [url|]; [|reflexivity].
    destruct (Js.is_empty url); [reflexivity|]. simpl in Hu. rewrite Hu. reflexivity.
Qed.

(** ** The routes that only read *)

(** X2: GET /healthz, GET /, GET /code/:code, GET /api/links and GET
    /api/links/:code never throw out of their handler, send nothing but
    SELECT statements (at most one), take no draw from [Math.random] and
    leave the table exactly as it was, whatever the request and the
    table are. *)
Theorem reading_routes_are_safe (hp : string -> bool -> option string) (rnd : nat -> Q)
  (rt : Route) (now : Z) (req : Request) (w : World) :
  reads_only rt = true ->
  (exists resp, fst (handler hp rnd rt now req w) = Ok resp) /\
  links (snd (handler hp rnd rt now req w)) = links w /\
  draws (snd (handler hp rnd rt now req w)) = draws w /\
  exists qs,
    sent (snd (handler hp rnd rt now req w)) = (sent w ++ qs)%list /\
    forallb is_select qs = true /\ (List.length qs <= 1)%nat.
Proof.
  intros H.
  assert (one : forall q : Query, is_select q = true ->
            exists qs, (sent w ++ [q])%list = (sent w ++ qs)%list /\
                       forallb is_select qs = true /\ (List.length qs <= 1)%nat).
  { intros q Hq. exists [q]. simpl. rewrite Hq. repeat split. lia. }
  destruct rt; try discriminate; simpl.
  - unfold healthz, ret. simpl. split; [eauto|]. split; [reflexivity|].
    split; [reflexivity|]. exists []. rewrite app_nil_r. simpl. repeat split. lia.
  - unfold dashboard, try_catch, bind, db_query.
    destruct (negb (Js.is_empty _)); simpl;
      (split; [eauto|]; split; [reflexivity|]; split; [reflexivity|]);
      now apply one.
  - unfold stats_page, try_catch, bind, db_query. simpl.
    destruct (_ =? 0)%nat; simpl;
      (split; [eauto|]; split; [reflexivity|]; split; [reflexivity|]);
      now apply one.
  - unfold list_links, try_catch, bind, db_query. simpl.
    split; [eauto|]. split; [reflexivity|]. split; [reflexivity|]. now apply one.
  - unfold get_link, try_catch, bind, db_query. simpl.
    destruct (_ =? 0)%nat; simpl;
      (split; [eauto|]; split; [reflexivity|]; split; [reflexivity|]);
      now apply one.
Qed.

Lemma reading_routes_are_safe_witness :
  links (snd (handler Url.ascii_host_parser zero_draws Dashboard 200
                (mkRequest "" (Some "%") None None) (mkWorld [older_row; sample_row] [] 0)))
  = [older_row; sample_row].
Proof.
  apply (reading_routes_are_safe Url.ascii_host_parser zero_draws Dashboard 200
           (mkRequest "" (Some "%") None None) (mkWorld [older_row; sample_row] [] 0)).
  reflexivity.
Defined.

(** X3: the stats page and the JSON view of one link agree.  For a code
    with no row, GET /code/:code answers 404 "Link not found" as text
    and GET /api/links/:code answers it as JSON; for a stored code both
    show the row stored under it, with its five columns, [created_at]
    included. *)
Theorem stats_and_get_agree (now : Z) (req : Request) (w : World) :
  match row_of (param_code req) (links w) with
  | None =>
      fst (stats_page now req w) = Ok (SendText 404 "Link not found") /\
      fst (get_link now req w) = Ok (SendJson 404 (JError "Link not found"))
  | Some r =>
      fst (stats_page now req w) = Ok (RenderStats (Some (project stats_columns r))) /\
      fst (get_link now req w) = Ok (SendJson 200 (JObject (Some (project stats_columns r)))) /\
      field Ccreated_at (project stats_columns r) = Some (VTime (created_at r)) /\
      field Ccode (project stats_columns r) = Some (VText (param_code req))
  end.
Proof.
  destruct (row_of (param_code req) (links w)) as [r|] eqn:H.
  - destruct (row_of_some_filter _ _ _ H) as [l Hl].
    unfold stats_page, get_link, try_catch, bind, db_query. simpl. rewrite Hl. simpl.
    rewrite (row_of_code _ _ _ H). repeat split.
  - unfold stats_page, get_link, try_catch, bind, db_query. simpl.
    rewrite (row_of_none_filter _ _ H). simpl. split; reflexivity.
Qed.

(** ** A link from creation to deletion *)

Lemma create_link_fresh (hp : string -> bool -> option string) (rnd : nat -> Q)
  (now : Z) (req : Request) (w : World) (url c : string) :
  body_url req = Some url ->
  url_ok hp req = true ->
  body_code req = Some c ->
  CODE_REGEX_test c = true ->
  row_of c (links w) = None ->
  create_link hp rnd now req w
  = (Ok (created c url now),
     mkWorld (links w ++ [new_row c url now])%list (sent w ++ [InsertLink c url])%list (draws w)).
Proof.
  intros Hu Hok Hc Hre Hrow.
  assert (Hcode : code_ok req = true).
  { unfold code_ok. rewrite Hc, Hre. apply orb_true_r. }
  assert (Hch : chosen_code rnd req w = (Ok c, w)).
  { unfold chosen_code. rewrite Hc, (CODE_REGEX_nonempty _ Hre). reflexivity. }
  rewrite (create_link_valid hp rnd now req w url c w Hu Hok Hcode Hch).
  apply row_of_none_existsb in Hrow. now rewrite Hrow.
Qed.

Lemma row_of_new c url now t :
  row_of c t = None -> row_of c (t ++ [new_row c url now])%list = Some (new_row c url now).
Proof.
  intros H. rewrite row_of_inserted, H. unfold code_is, new_row. simpl.
  now rewrite String.eqb_refl.
Qed.

(** X4: a link created under a free custom code can be fetched back.
    After POST /api/links succeeds with a valid URL and a custom code
    that was free, GET /api/links/:code on that code answers 200 with
    the URL exactly as it was sent, zero clicks, no last click, and the
    time of the request as [created_at]; the other codes are as they
    were. *)
Theorem create_then_get (hp : string -> bool -> option string) (rnd : nat -> Q)
  (now : Z) (req : Request) (w : World) (url c : string) :
  body_url req = Some url ->
  url_ok hp req = true ->
  body_code req = Some c ->
  CODE_REGEX_test c = true ->
  row_of c (links w) = None ->
  fst (create_link hp rnd now req w) = Ok (created c url now) /\
  (forall now' req',
      param_code req' = c ->
      fst (get_link now' req' (snd (create_link hp rnd now req w)))
      = Ok (SendJson 200
              (JObject (Some [(Ccode, VText c); (Ctarget_url, VText url);
                              (Ctotal_clicks, VInt 0); (Clast_clicked, VNull);
                              (Ccreated_at, VTime now)])))) /\
  (forall c', c' <> c ->
      row_of c' (links (snd (create_link hp rnd now req w))) = row_of c' (links w)).
Proof.
  intros Hu Hok Hc Hre Hrow.
  rewrite (create_link_fresh hp rnd now req w url c Hu Hok Hc Hre Hrow). simpl.
  split; [reflexivity|]. split.
  - intros now' req' <-.
    pose proof (row_of_new (param_code req') url now _ Hrow) as Hn.
    destruct (row_of_some_filter _ _ _ Hn) as [l Hl].
    unfold get_link, try_catch, bind, db_query. simpl. rewrite Hl. reflexivity.
  - intros c' Hne. rewrite row_of_inserted.
    destruct (row_of c' (links w)); [reflexivity|].
    unfold code_is, new_row. simpl.
    apply not_eq_sym in Hne. apply String.eqb_neq in Hne. now rewrite Hne.
Qed.

Lemma create_then_get_witness :
  fst (create_link Url.ascii_host_parser zero_draws 300 docs_request
         (mkWorld [sample_row] [] 0))
  = Ok (created "Docs42" "https://docs.example.org/Guide" 300).
Proof.
  apply (create_then_get Url.ascii_host_parser zero_draws 300 docs_request
           (mkWorld [sample_row] [] 0) "https://docs.example.org/Guide" "Docs42");
    reflexivity.
Defined.

(** X5: a created link redirects to the URL it was given, and the click
    shows.  After POST /api/links succeeds under a free custom code, GET
    /:code on that code at time [t] answers 302 to the URL exactly as it
    was sent, and GET /api/links/:code then reports one click, last
    clicked at [t]. *)
Theorem create_then_redirect (hp : string -> bool -> option string) (rnd : nat -> Q)
  (now t : Z) (req visit : Request) (w : World) (url c : string) :
  body_url req = Some url ->
  url_ok hp req = true ->
  body_code req = Some c ->
  CODE_REGEX_test c = true ->
  row_of c (links w) = None ->
  param_code visit = c ->
  let w1 := snd (create_link hp rnd now req w) in
  let w2 := snd (redirect t visit w1) in
  fst (redirect t visit w1) = Ok (Redirect 302 (Some (VText url))) /\
  forall now',
    fst (get_link now' visit w2)
    = Ok (SendJson 200
            (JObject (Some [(Ccode, VText c); (Ctarget_url, VText url);
                            (Ctotal_clicks, VInt 1); (Clast_clicked, VTime t);
                            (Ccreated_at, VTime now)]))).
Proof.
  intros Hu Hok Hc Hre Hrow Hv w1 w2. subst w2 w1 c.
  rewrite (create_link_fresh hp rnd now req w url _ Hu Hok Hc Hre Hrow). simpl.
  pose proof (row_of_new (param_code visit) url now _ Hrow) as Hn.
  destruct (row_of_some_filter _ _ _ Hn) as [l Hl].
  assert (E : redirect t visit
                (mkWorld (links w ++ [new_row (param_code visit) url now])%list
                   (sent w ++ [InsertLink (param_code visit) url])%list (draws w))
              = (Ok (Redirect 302 (Some (VText url))),
                 mkWorld (map (fun r => if code_is (param_code visit) r then click t r else r)
                            (links w ++ [new_row (param_code visit) url now])%list)
                   ((sent w ++ [InsertLink (param_code visit) url]) ++ [SelectTarget (param_code visit)]
                      ++ [UpdateClicks (param_code visit)])%list
                   (draws w))).
  { unfold redirect, try_catch, bind, db_query. simpl. rewrite Hl. simpl.
    rewrite <- !app_assoc. reflexivity. }
  rewrite E. simpl. split; [reflexivity|]. intros now'.
  assert (Hr : row_of (param_code visit)
                 (map (fun r => if code_is (param_code visit) r then click t r else r)
                    (links w ++ [new_row (param_code visit) url now])%list)
               = Some (click t (new_row (param_code visit) url now))).
  { rewrite row_of_clicked, String.eqb_refl, Hn. reflexivity. }
  destruct (row_of_some_filter _ _ _ Hr) as [l' Hl'].
  unfold get_link, try_catch, bind, db_query. simpl. rewrite Hl'. reflexivity.
Qed.

Lemma create_then_redirect_witness :
  fst (redirect 400 (mkRequest "Docs42" None None None)
         (snd (create_link Url.ascii_host_parser zero_draws 300 docs_request
                 (mkWorld [sample_row] [] 0))))
  = Ok (Redirect 302 (Some (VText "https://docs.example.org/Guide"))).
Proof.
  apply (create_then_redirect Url.ascii_host_parser zero_draws 300 400 docs_request
           (mkRequest "Docs42" None None None) (mkWorld [sample_row] [] 0)
           "https://docs.example.org/Guide" "Docs42"); reflexivity.
Defined.

(** X6: a deleted code is free again.  When a row is stored under [c],
    DELETE /api/links/:code on [c] answers 204, and a POST /api/links
    with a valid URL and the custom code [c] sent afterwards answers
    201; the row then stored under [c] is the new one, with the new URL,
    zero clicks and no last click, whatever the deleted row held. *)
Theorem delete_then_create (hp : string -> bool -> option string) (rnd : nat -> Q)
  (now0 now : Z) (gone req : Request) (w : World) (url c : string) (r : Row) :
  row_of c (links w) = Some r ->
  param_code gone = c ->
  body_url req = Some url ->
  url_ok hp req = true ->
  body_code req = Some c ->
  CODE_REGEX_test c = true ->
  let w1 := snd (delete_link now0 gone w) in
  fst (delete_link now0 gone w) = Ok (End 204) /\
  fst (create_link hp rnd now req w1) = Ok (created c url now) /\
  row_of c (links (snd (create_link hp rnd now req w1))) = Some (new_row c url now).
Proof.
  intros Hr Hg Hu Hok Hc Hre w1. subst w1 c.
  destruct (row_of_some_filter _ _ _ Hr) as [l Hl].
  assert (E : delete_link now0 gone w
              = (Ok (End 204),
                 mkWorld (filter (fun x => negb (code_is (param_code gone) x)) (links w))
                   (sent w ++ [DeleteLink (param_code gone)])%list (draws w))).
  { unfold delete_link, try_catch, bind, db_query. simpl. rewrite Hl. reflexivity. }
  rewrite E. simpl. split; [reflexivity|].
  set (w1 := mkWorld (filter (fun x => negb (code_is (param_code gone) x)) (links w))
               (sent w ++ [DeleteLink (param_code gone)])%list (draws w)).
  assert (Hfree : row_of (param_code gone) (links w1) = None).
  { subst w1. simpl. rewrite row_of_deleted. now rewrite String.eqb_refl. }
  rewrite (create_link_fresh hp rnd now req w1 url _ Hu Hok Hc Hre Hfree). simpl.
  split; [reflexivity|]. now apply row_of_new.
Qed.

Lemma delete_then_create_witness :
  row_of "abc123"
    (links (snd (create_link Url.ascii_host_parser zero_draws 500 reuse_request
                   (snd (delete_link 450 (mkRequest "abc123" None None None)
                           (mkWorld [sample_row] [] 0))))))
  = Some (new_row "abc123" "https://example.net/new" 500).
Proof.
  apply (delete_then_create Url.ascii_host_parser zero_draws 450 500
           (mkRequest "abc123" None None None) reuse_request
           (mkWorld [sample_row] [] 0) "https://example.net/new" "abc123" sample_row);
    reflexivity.
Defined.

(** ** The code generator and the code pattern *)

(** X7: for every length [n], when [Math.random] stays in [0, 1),
    [generateCode(n)] returns a string of exactly [n] units, each from
    the 62-character alphabet; it takes exactly [n] draws and touches
    neither the table nor the store.  The result matches the code
    pattern exactly when [n] is between 6 and 8. *)
Theorem generateCode_spec (rnd : nat -> Q) (n : nat) (w : World) :
  in_unit_interval rnd ->
  exists s,
    generateCode rnd n w = (Ok s, mkWorld (links w) (sent w) (draws w + n)) /\
    String.length s = n /\
    Js.forallb in_chars s = true /\
    CODE_REGEX_test s = ((6 <=? n) && (n <=? 8))%nat.
Proof.
  intros Hr. destruct (generateCode_from_spec rnd n Hr "" w) as (s & E & Hl & Hin & Hal).
  exists s. unfold generateCode. change ("" ++ s) with s in E.
  split; [exact E|]. split; [exact Hl|]. split; [exact Hin|].
  unfold CODE_REGEX_test. rewrite Hl, Hal. now rewrite andb_true_r.
Qed.

Lemma generateCode_spec_witness :
  exists s,
    generateCode zero_draws 9 empty_world
    = (Ok s, mkWorld (links empty_world) (sent empty_world) (draws empty_world + 9)) /\
    String.length s = 9%nat /\
    Js.forallb in_chars s = true /\
    CODE_REGEX_test s = ((6 <=? 9) && (9 <=? 8))%nat.
Proof.
  apply (generateCode_spec zero_draws 9 empty_world). exact zero_draws_in_unit_interval.
Defined.

Lemma in_chars_alnum (c : ascii) : in_chars c = Js.is_alnum c.
Proof. destruct c as [[] [] [] [] [] [] [] []]; vm_compute; reflexivity. Qed.

(** X8: the generator and the validator agree on the alphabet: a unit
    is one of the 62 characters of [chars] exactly when it is in the
    class [A-Za-z0-9] of [CODE_REGEX].  So a custom code is accepted
    exactly when it has 6 to 8 units, all of them units the generator
    could have drawn. *)
Theorem custom_codes_use_generator_alphabet (s : string) :
  CODE_REGEX_test s
  = (6 <=? String.length s)%nat && (String.length s <=? 8)%nat && Js.forallb in_chars s.
Proof.
  unfold CODE_REGEX_test. f_equal.
  induction s as [|c s IH]; simpl; [reflexivity|].
  now rewrite IH, in_chars_alnum.
Qed.

(** ** What a request can do to the table *)

Lemma create_link_rejected (hp : string -> bool -> option string) (rnd : nat -> Q)
  (now : Z) (req : Request) (w : World) :
  url_ok hp req && code_ok req = false ->
  snd (create_link hp rnd now req w) = w.
Proof.
  unfold url_ok, code_ok, create_link, try_catch.
  destruct (body_url req) as [url|]; [|reflexivity].
  destruct (Js.is_empty url); [reflexivity|]. simpl.
  destruct (isValidUrl hp url); [|reflexivity]. simpl.
  destruct (body_code req) as [c|]; [|discriminate]. simpl.
  destruct (Js.is_empty c); [discriminate|]. simpl.
  intros H. now rewrite H.
Qed.

Lemma serve_table (hp : string -> bool -> option string) (rnd : nat -> Q)
  (c : Call) (w : World) :
  table_change hp rnd c w (links (snd (serve hp rnd c w))).
Proof.
  destruct c as [rt now req]. unfold serve, table_change. simpl.
  destruct rt; simpl.
  - left. reflexivity.
  - left. unfold dashboard, try_catch, bind, db_query.
    destruct (negb (Js.is_empty _)); reflexivity.
  - left. unfold stats_page, try_catch, bind, db_query. simpl.
    destruct (_ =? 0)%nat; reflexivity.
  - destruct (url_ok hp req && code_ok req) eqn:V.
    + apply andb_true_iff in V as [Hu Hc].
      assert (exists url, body_url req = Some url) as [url Eu].
      { unfold url_ok in Hu. destruct (body_url req); [eauto | discriminate]. }
      destruct (chosen_code_runs rnd req w) as (k & w0 & Ech & El & Es).
      rewrite (create_link_valid hp rnd now req w url k w0 Eu Hu Hc Ech).
      rewrite El. destruct (existsb (code_is k) (links w)) eqn:Ex; simpl.
      * left. reflexivity.
      * right. right. right. split; [reflexivity|]. exists k, url.
        rewrite Ech. repeat split; try assumption.
        now apply row_of_none_existsb.
    + left. now rewrite create_link_rejected.
  - left. reflexivity.
  - left. unfold get_link, try_catch, bind, db_query. simpl.
    destruct (_ =? 0)%nat; reflexivity.
  - right. left. split; [reflexivity|].
    unfold delete_link, try_catch, bind, db_query. simpl.
    destruct (_ =? 0)%nat; reflexivity.
  - destruct (row_of (param_code req) (links w)) as [r0|] eqn:Hp.
    + right. right. left. split; [reflexivity|].
      destruct (row_of_some_filter _ _ _ Hp) as [l Hl].
      unfold redirect, try_catch, bind, db_query. simpl. rewrite Hl. reflexivity.
    + left. now apply redirect_miss.
Qed.

Lemma chosen_code_matches (rnd : nat -> Q) (req : Request) (w : World) (k : string) :
  in_unit_interval rnd ->
  code_ok req = true ->
  fst (chosen_code rnd req w) = Ok k ->
  CODE_REGEX_test k = true.
Proof.
  intros Hr Hc.
  assert (G : fst (generateCode rnd 6 w) = Ok k -> CODE_REGEX_test k = true).
  { destruct (generateCode_from_spec rnd 6 Hr "" w) as (s & E & Hl & _ & Hal).
    unfold generateCode. rewrite E. simpl. intros [= <-].
    now apply generated_code_matches. }
  unfold chosen_code, code_ok in *. destruct (body_code req) as [c|]; [|exact G].
  destruct (Js.is_empty c); [exact G|]. simpl in Hc. now intros [= <-].
Qed.

(** A property of the table that every possible change keeps holds
    after any sequence of requests. *)
Lemma serve_all_invariant (hp : string -> bool -> option string) (rnd : nat -> Q)
  (P : Table -> Prop) :
  (forall c w t', P (links w) -> table_change hp rnd c w t' -> P t') ->
  forall cs w, P (links w) -> P (links (serve_all hp rnd cs w)).
Proof.
  intros Step cs. induction cs as [|c cs IH]; intros w H; simpl; [exact H|].
  apply IH. exact (Step c w _ H (serve_table hp rnd c w)).
Qed.

Lemma Forall_rows_filter (P : Row -> Prop) (f : Row -> bool) (t : Table) :
  Forall P t -> Forall P (filter f t).
Proof.
  rewrite !Forall_forall. intros H x Hx. apply filter_In in Hx. now apply H.
Qed.

Lemma Forall_rows_clicked (P : Row -> Prop) (k : string) (now : Z) (t : Table) :
  (forall r, P r -> P (click now r)) ->
  Forall P t -> Forall P (map (fun r => if code_is k r then click now r else r) t).
Proof.
  intros Hc. rewrite !Forall_forall. intros H x Hx.
  apply in_map_iff in Hx as (r & <- & Hr).
  destruct (code_is k r); [apply Hc|]; now apply H.
Qed.

(** ** Invariants of the table *)

(** X9: the counters of every row agree after any sequence of requests:
    if, in every row, [total_clicks] is not negative and is 0 exactly
    when [last_clicked] is null, then the same holds after serving any
    requests.  It holds in the empty table, so in every table the
    server builds from it. *)
Theorem counters_stay_in_step (hp : string -> bool -> option string) (rnd : nat -> Q)
  (cs : list Call) (w : World) :
  Forall counters_agree (links w) ->
  Forall counters_agree (links (serve_all hp rnd cs w)).
Proof.
  apply serve_all_invariant. clear cs w.
  intros c w t' H [->|[[_ ->]|[[_ ->]|[_ (k & url & -> & _)]]]].
  - exact H.
  - now apply Forall_rows_filter.
  - apply Forall_rows_clicked; [|exact H].
    intros r [H0 H1]. unfold counters_agree, click. simpl.
    split; [lia|]. split; [lia | discriminate].
  - apply Forall_app. split; [exact H|].
    constructor; [|constructor]. unfold counters_agree, new_row. simpl.
    split; [lia | tauto].
Qed.

Lemma counters_stay_in_step_witness :
  Forall counters_agree
    (links (serve_all Url.ascii_host_parser zero_draws sample_calls empty_world)).
Proof.
  apply (counters_stay_in_step Url.ascii_host_parser zero_draws sample_calls empty_world).
  constructor.
Defined.

(** X10: every stored row stays acceptable.  When [Math.random] stays
    in [0, 1): if every row of the table has a code that matches the
    code pattern and a URL that the validator accepts, the same holds
    after serving any requests; generated codes and custom codes alike
    pass the pattern before they are stored. *)
Theorem stored_rows_stay_well_formed (hp : string -> bool -> option string)
  (rnd : nat -> Q) (cs : list Call) (w : World) :
  in_unit_interval rnd ->
  Forall (well_formed hp) (links w) ->
  Forall (well_formed hp) (links (serve_all hp rnd cs w)).
Proof.
  intros Hr. apply serve_all_invariant. clear cs w.
  intros c w t' H [->|[[_ ->]|[[_ ->]|[_ (k & url & -> & _ & Eu & Hu & Hc & Hk)]]]].
  - exact H.
  - now apply Forall_rows_filter.
  - apply Forall_rows_clicked; [|exact H]. intros r Hwf. exact Hwf.
  - apply Forall_app. split; [exact H|].
    constructor; [|constructor]. unfold well_formed, new_row. simpl. split.
    + exact (chosen_code_matches rnd (request c) w k Hr Hc Hk).
    + unfold url_ok in Hu. rewrite Eu in Hu. now apply andb_true_iff in Hu.
Qed.

Lemma stored_rows_stay_well_formed_witness :
  Forall (well_formed Url.ascii_host_parser)
    (links (serve_all Url.ascii_host_parser zero_draws sample_calls empty_world)).
Proof.
  apply (stored_rows_stay_well_formed Url.ascii_host_parser zero_draws sample_calls
           empty_world).
  - exact zero_draws_in_unit_interval.
  - constructor.
Defined.

Lemma unique_codes_append (t : Table) (r : Row) :
  unique_codes t -> row_of (code r) t = None -> unique_codes (t ++ [r])%list.
Proof.
  unfold unique_codes. intros U Hn. rewrite map_app. simpl.
  apply NoDup_incl_NoDup with (l := code r :: map code t).
  - constructor; [|exact U]. intros Hin. apply in_map_iff in Hin as (x & Hx & Hi).
    apply row_of_none_existsb in Hn.
    assert (F : existsb (code_is (code r)) t = true).
    { apply existsb_exists. exists x. split; [exact Hi | now apply code_is_true]. }
    congruence.
  - rewrite length_app. simpl. lia.
  - intros x [<-|Hx]; apply in_or_app; [right; now left | now left].
Qed.

(** X11: codes stay unique.  If no two rows of the table share a code,
    no two rows share one after serving any requests: a POST under a
    stored code is refused by the store, a redirect rewrites no code and
    a DELETE only removes rows. *)
Theorem codes_stay_unique (hp : string -> bool -> option string) (rnd : nat -> Q)
  (cs : list Call) (w : World) :
  unique_codes (links w) ->
  unique_codes (links (serve_all hp rnd cs w)).
Proof.
  apply serve_all_invariant. clear cs w.
  intros c w t' U [->|[[_ ->]|[[_ ->]|[_ (k & url & -> & Hn & _)]]]].
  - exact U.
  - unfold unique_codes in *. induction (links w) as [|x t IH]; simpl; [constructor|].
    apply NoDup_cons_iff in U as [Hx U].
    destruct (code_is (param_code (request c)) x); simpl; [now apply IH|].
    constructor; [|now apply IH].
    intros Hin. apply Hx. apply in_map_iff in Hin as (y & Hy & Hi).
    apply filter_In in Hi as [Hi _]. apply in_map_iff. eauto.
  - unfold unique_codes in *. rewrite map_map.
    erewrite map_ext; [exact U|].
    intros x. simpl. now destruct (code_is (param_code (request c)) x).
  - apply unique_codes_append; [exact U | exact Hn].
Qed.

Lemma codes_stay_unique_witness :
  unique_codes
    (links (serve_all Url.ascii_host_parser zero_draws sample_calls
              (mkWorld [older_row; sample_row] [] 0))).
Proof.
  apply (codes_stay_unique Url.ascii_host_parser zero_draws sample_calls
           (mkWorld [older_row; sample_row] [] 0)).
  unfold unique_codes. simpl.
  constructor; [simpl; intros [H|[]]; discriminate|].
  constructor; [simpl; tauto | constructor].
Defined.

(** X12: [last_clicked] is the time of the latest redirect.  Over any
    sequence of requests that does not delete the code [k], the row
    stored under [k] ends with [last_clicked] equal to the time of the
    last GET /:code on [k] in the sequence, and with the value it
    started with when the sequence holds no such request. *)
Theorem last_clicked_is_latest_redirect (hp : string -> bool -> option string)
  (rnd : nat -> Q) (cs : list Call) (w : World) (k : string) (r : Row) :
  row_of k (links w) = Some r ->
  forallb (fun c => negb (deletes k c)) cs = true ->
  exists r',
    row_of k (links (serve_all hp rnd cs w)) = Some r' /\
    last_clicked r' = last_click k cs (last_clicked r).
Proof.
  revert w r. induction cs as [|c cs IH]; intros w r H D.
  - exists r. split; [exact H | reflexivity].
  - simpl in D. apply andb_true_iff in D as [Dc D]. apply negb_true_iff in Dc.
    pose proof (serve_row hp rnd c w k r H) as S. rewrite Dc in S.
    cbn [serve_all last_click]. destruct (clicks k c).
    + destruct (IH _ _ S D) as (r' & Hr & Hl). exists r'. split; [exact Hr | exact Hl].
    + destruct (IH _ _ S D) as (r' & Hr & Hl). exists r'. split; [exact Hr | exact Hl].
Qed.

Lemma last_clicked_is_latest_redirect_witness :
  exists r',
    row_of "abc123"
      (links (serve_all Url.ascii_host_parser zero_draws sample_calls
                (mkWorld [sample_row] [] 0))) = Some r' /\
    last_clicked r' = last_click "abc123" sample_calls (last_clicked sample_row).
Proof.
  apply (last_clicked_is_latest_redirect Url.ascii_host_parser zero_draws sample_calls
           (mkWorld [sample_row] [] 0) "abc123" sample_row); reflexivity.
Defined.

(** ** Searching with LIKE characters in the query *)

Lemma like_underscore_step p t :
  like (String "_" p) t
  = match t with
    | String _ t' => like p t'
    | EmptyString => false
    end.
Proof. reflexivity. Qed.

Lemma like_percent_intro p t : like p t = true -> like (String "%" p) t = true.
Proof. intros H. rewrite like_percent_step, H. reflexivity. Qed.

Lemma like_percent_skip p pre t :
  like (String "%" p) t = true -> like (String "%" p) (pre ++ t) = true.
Proof.
  intros H. induction pre as [|x pre IH]; [exact H|].
  change (String x pre ++ t) with (String x (pre ++ t)).
  rewrite like_percent_step, IH. apply orb_true_r.
Qed.

(** Without a backslash, a pattern matches its own text: [%] and [_]
    match themselves among other things. *)
Lemma like_self q p t :
  no_backslash q = true -> like p t = true -> like (q ++ p) (q ++ t) = true.
Proof.
  intros Hq Hp. induction q as [|c q IH]; [exact Hp|].
  simpl in Hq. apply andb_true_iff in Hq as [Hc Hq]. apply negb_true_iff in Hc.
  specialize (IH Hq).
  change (String c q ++ p) with (String c (q ++ p)).
  change (String c q ++ t) with (String c (q ++ t)).
  destruct (Ascii.eqb_spec c "%") as [->|N1].
  - rewrite like_percent_step. rewrite (like_percent_intro _ _ IH). apply orb_true_r.
  - destruct (Ascii.eqb_spec c "_") as [->|N2].
    + rewrite like_underscore_step. exact IH.
    + rewrite like_literal_step.
      * now rewrite Ascii.eqb_refl, IH.
      * unfold like_special. rewrite Hc.
        apply Ascii.eqb_neq in N1, N2. now rewrite N1, N2.
Qed.

Lemma like_includes q t :
  no_backslash q = true -> includes q t = true -> like ("%" ++ q ++ "%") t = true.
Proof.
  intros Hq H. apply includes_iff in H as (pre & post & ->).
  change ("%" ++ q ++ "%") with (String "%" (q ++ "%")).
  apply like_percent_skip, like_percent_intro, like_self; [exact Hq|].
  apply like_percent_all.
Qed.

Lemma backslash_to_lower c : Ascii.eqb (Js.to_lower c) "\" = Ascii.eqb c "\".
Proof. destruct c as [[] [] [] [] [] [] [] []]; reflexivity. Qed.

Lemma no_backslash_lower q : no_backslash (Js.lower q) = no_backslash q.
Proof.
  unfold no_backslash. induction q as [|c q IH]; simpl; [reflexivity|].
  now rewrite backslash_to_lower, IH.
Qed.

Lemma ilike_includes q t :
  no_backslash q = true -> contains_ci q t = true -> ilike t ("%" ++ q ++ "%") = true.
Proof.
  intros Hq H. unfold ilike. rewrite !lower_append. change (Js.lower "%") with "%".
  apply like_includes; [now rewrite no_backslash_lower | exact H].
Qed.

(** X13: the dashboard search never hides a row that contains the
    query.  For every non-empty [q] without a backslash, [%] and [_]
    included, GET /?q= shows, newest first, only rows of the table, and
    among them every row whose [code] or [target_url] contains [q]
    when case is ignored. *)
Theorem search_shows_containing_rows (now : Z) (req : Request) (w : World) (q : string) :
  query_q req = Some q ->
  Js.is_empty q = false ->
  no_backslash q = true ->
  exists l,
    fst (dashboard now req w) = Ok (RenderDashboard (map (project link_columns) l) q) /\
    newest_first l /\
    (forall r, In r l -> In r (links w)) /\
    (forall r, In r (links w) ->
               contains_ci q (code r) || contains_ci q (target_url r) = true ->
               In r l).
Proof.
  intros Eq Hne Hq.
  exists (order_by_created_at_desc (filter (matches_like ("%" ++ q ++ "%")) (links w))).
  split.
  - unfold dashboard, try_catch, bind, db_query. rewrite Eq, Hne. reflexivity.
  - split; [apply order_by_sorted|]. split.
    + intros r Hr. apply (Permutation_in _ (order_by_perm _)) in Hr.
      now apply filter_In in Hr.
    + intros r Hr Hc.
      apply (Permutation_in _ (Permutation_sym (order_by_perm _))).
      apply filter_In. split; [exact Hr|].
      unfold matches_like. apply orb_true_iff in Hc as [Hc|Hc].
      * now rewrite (ilike_includes _ _ Hq Hc).
      * rewrite (ilike_includes _ _ Hq Hc). apply orb_true_r.
Qed.

Lemma search_shows_containing_rows_witness :
  exists l,
    fst (dashboard 200 (mkRequest "" (Some "100%_") None None)
           (mkWorld [older_row; sample_row] [] 0))
    = Ok (RenderDashboard (map (project link_columns) l) "100%_") /\
    newest_first l /\
    (forall r, In r l -> In r [older_row; sample_row]) /\
    (forall r, In r [older_row; sample_row] ->
               contains_ci "100%_" (code r) || contains_ci "100%_" (target_url r) = true ->
               In r l).
Proof.
  apply (search_shows_containing_rows 200 (mkRequest "" (Some "100%_") None None)
           (mkWorld [older_row; sample_row] [] 0) "100%_"); reflexivity.
Defined.

(** ** The page script against the server *)

Lemma create_link_rejected_answer (hp : string -> bool -> option string) (rnd : nat -> Q)
  (now : Z) (req : Request) (w : World) :
  url_ok hp req && code_ok req = false ->
  exists msg,
    create_link hp rnd now req w = (Ok (SendJson 400 (JError msg)), w) /\
    (msg = "Invalid or missing URL" \/ msg = "Custom code must match [A-Za-z0-9]{6,8}").
Proof.
  unfold url_ok, code_ok, create_link, try_catch.
  destruct (body_url req) as [url|]; [|eexists; split; [reflexivity | now left]].
  destruct (Js.is_empty url); [eexists; split; [reflexivity | now left]|]. simpl.
  destruct (isValidUrl hp url); [|eexists; split; [reflexivity | now left]]. simpl.
  destruct (body_code req) as [c|]; [|discriminate]. simpl.
  destruct (Js.is_empty c); [discriminate|]. simpl.
  intros H. rewrite H. simpl. eexists; split; [reflexivity | now right].
Qed.

(** X14: what the form shows is what the server did.  For any values
    of the two fields, once the POST has been answered the submit
    button is enabled again, and either the page was reloaded under the
    message "Link created successfully!" and exactly one row, carrying
    the submitted URL under a code that was free, was added to the
    table; or the message is the server's error text (invalid URL,
    invalid code or code already taken) with the class [error], the
    form is not reset and the table is as it was. *)
Theorem form_reports_the_outcome (hp : string -> bool -> option string) (rnd : nat -> Q)
  (now : Z) (url code : string) (w : World) :
  exists resp,
    fst (create_link hp rnd now (Page.create_request url code) w) = Ok resp /\
    Page.submit_disabled (Page.on_submit (Page.Responded resp)) = false /\
    if Page.reloaded (Page.on_submit (Page.Responded resp)) then
      Page.message (Page.on_submit (Page.Responded resp)) = "Link created successfully!" /\
      exists k,
        links (snd (create_link hp rnd now (Page.create_request url code) w))
        = (links w ++ [new_row k url now])%list /\
        row_of k (links w) = None
    else
      links (snd (create_link hp rnd now (Page.create_request url code) w)) = links w /\
      Page.form_reset (Page.on_submit (Page.Responded resp)) = false /\
      In "error" (Page.classes (Page.on_submit (Page.Responded resp))) /\
      In (Page.message (Page.on_submit (Page.Responded resp)))
        ["Invalid or missing URL"; "Custom code must match [A-Za-z0-9]{6,8}";
         "Code already exists"].
Proof.
  set (req := Page.create_request url code).
  destruct (url_ok hp req && code_ok req) eqn:V.
  - apply andb_true_iff in V as [Hu Hc].
    destruct (chosen_code_runs rnd req w) as (k & w0 & Ech & El & Es).
    rewrite (create_link_valid hp rnd now req w url k w0 eq_refl Hu Hc Ech).
    rewrite El. destruct (existsb (code_is k) (links w)) eqn:Ex.
    + exists conflict. simpl. repeat split; simpl; tauto.
    + exists (created k url now). simpl. repeat split.
      exists k. split; [reflexivity | now apply row_of_none_existsb].
  - destruct (create_link_rejected_answer hp rnd now req w V) as (msg & E & Hm).
    rewrite E. exists (SendJson 400 (JError msg)).
    destruct Hm as [-> | ->]; simpl; repeat split; tauto.
Qed.

(** X15: what a delete button does, for a button whose [data-code] is
    a code of the code pattern.  Without a [data-code], or when the
    confirmation is declined, the handler returns before sending
    anything.  Confirmed on a stored code, the DELETE is answered 204,
    the page reloads and no row is left under the code; confirmed on a
    code that is no longer stored (deleted from another page, say), the
    answer is 404, the user gets the alert "Error deleting link" and
    the table is as it was. *)
Theorem delete_button_outcome (now : Z) (code : string) (w : World) :
  CODE_REGEX_test code = true ->
  (forall send, Page.on_delete_click None true send = Page.Nothing) /\
  (forall send, Page.on_delete_click (Some code) false send = Page.Nothing) /\
  exists resp,
    fst (delete_link now (Page.delete_request code) w) = Ok resp /\
    match row_of code (links w) with
    | Some _ =>
        Page.on_delete_click (Some code) true (fun _ => Page.Responded resp) = Page.Reloaded /\
        row_of code (links (snd (delete_link now (Page.delete_request code) w))) = None
    | None =>
        Page.on_delete_click (Some code) true (fun _ => Page.Responded resp)
        = Page.Alerted "Error deleting link" /\
        links (snd (delete_link now (Page.delete_request code) w)) = links w
    end.
Proof.
  intros Hre. pose proof (CODE_REGEX_nonempty _ Hre) as Hne.
  split; [reflexivity|]. split.
  { intros send. unfold Page.on_delete_click. now rewrite Hne. }
  unfold Page.on_delete_click. rewrite Hne. simpl.
  destruct (row_of code (links w)) as [r|] eqn:H.
  - destruct (row_of_some_filter _ _ _ H) as [l Hl].
    assert (E : delete_link now (Page.delete_request code) w
                = (Ok (End 204),
                   mkWorld (filter (fun x => negb (code_is code x)) (links w))
                     (sent w ++ [DeleteLink code])%list (draws w))).
    { unfold delete_link, try_catch, bind, db_query. simpl. rewrite Hl. reflexivity. }
    rewrite E. exists (End 204). simpl. repeat split.
    rewrite row_of_deleted. now rewrite String.eqb_refl.
  - assert (E : delete_link now (Page.delete_request code) w
                = (Ok (SendJson 404 (JError "Link not found")),
                   mkWorld (filter (fun x => negb (code_is code x)) (links w))
                     (sent w ++ [DeleteLink code])%list (draws w))).
    { unfold delete_link, try_catch, bind, db_query. simpl.
      rewrite (row_of_none_filter _ _ H). reflexivity. }
    rewrite E. exists (SendJson 404 (JError "Link not found")). simpl. repeat split.
    clear E. unfold row_of in H.
    induction (links w) as [|x t IH]; simpl in *; [reflexivity|].
    destruct (code_is code x); [discriminate|]. simpl. f_equal. now apply IH.
Qed.

Lemma delete_button_outcome_witness :
  exists resp,
    fst (delete_link 600 (Page.delete_request "abc123") (mkWorld [sample_row] [] 0)) = Ok resp /\
    match row_of "abc123" (links (mkWorld [sample_row] [] 0)) with
    | Some _ =>
        Page.on_delete_click (Some "abc123") true (fun _ => Page.Responded resp)
        = Page.Reloaded /\
        row_of "abc123"
          (links (snd (delete_link 600 (Page.delete_request "abc123")
                         (mkWorld [sample_row] [] 0)))) = None
    | None =>
        Page.on_delete_click (Some "abc123") true (fun _ => Page.Responded resp)
        = Page.Alerted "Error deleting link" /\
        links (snd (delete_link 600 (Page.delete_request "abc123")
                      (mkWorld [sample_row] [] 0)))
        = links (mkWorld [sample_row] [] 0)
    end.
Proof.
  apply (delete_button_outcome 600 "abc123" (mkWorld [sample_row] [] 0)). reflexivity.
Defined.

(** ** A code that the route order shadows *)

Lemma lower_letter_alnum (c : ascii) :
  Js.is_lower (Js.to_lower c) = true -> Js.is_alnum c = true.
Proof. destruct c as [[] [] [] [] [] [] [] []]; vm_compute; intros H; congruence. Qed.

Lemma healthz_is_a_code (seg : string) :
  Js.lower seg = "healthz" -> CODE_REGEX_test seg = true.
Proof.
  intros H.
  do 7 (destruct seg as [|? seg]; [discriminate|]).
  destruct seg; [|discriminate].
  simpl in H. injection H as H1 H2 H3 H4 H5 H6 H7.
  unfold CODE_REGEX_test. simpl.
  rewrite !lower_letter_alnum; [reflexivity| | | | | | |];
    match goal with E : Js.to_lower ?c = _ |- Js.is_lower (Js.to_lower ?c) = true =>
      rewrite E; reflexivity end.
Qed.

(** X16: a link can be created that can never be followed.  The code
    [healthz], in any letter case, passes the code pattern, so POST
    /api/links stores a link under it when it is free; but GET on that
    code is answered by the health check, which is registered before
    [/:code]: whatever the table holds, the answer is the 200 health
    JSON, not a redirect, and the table (the click counter with it)
    stays as it was. *)
Theorem healthz_code_is_shadowed (is_file : string -> bool)
  (hp : string -> bool -> option string) (rnd : nat -> Q)
  (now : Z) (req : Request) (w : World) (url seg : string) :
  Js.lower seg = "healthz" ->
  is_file seg = false ->
  body_url req = Some url ->
  url_ok hp req = true ->
  body_code req = Some seg ->
  row_of seg (links w) = None ->
  CODE_REGEX_test seg = true /\
  fst (create_link hp rnd now req w) = Ok (created seg url now) /\
  row_of seg (links (snd (create_link hp rnd now req w))) = Some (new_row seg url now) /\
  forall t w', Routing.get_segment is_file hp rnd t seg w' = Some (Ok (SendJson 200 JHealth), w').
Proof.
  intros Hl Hf Hu Hok Hc Hrow.
  pose proof (healthz_is_a_code seg Hl) as Hre.
  split; [exact Hre|].
  rewrite (create_link_fresh hp rnd now req w url seg Hu Hok Hc Hre Hrow). simpl.
  split; [reflexivity|]. split; [now apply row_of_new|].
  intros t w'. unfold Routing.get_segment, Routing.route_of_segment.
  rewrite Hf, Hl. reflexivity.
Qed.

Lemma healthz_code_is_shadowed_witness :
  CODE_REGEX_test "HealthZ" = true /\
  fst (create_link Url.ascii_host_parser zero_draws 700 healthz_request empty_world)
  = Ok (created "HealthZ" "https://example.com" 700) /\
  row_of "HealthZ"
    (links (snd (create_link Url.ascii_host_parser zero_draws 700 healthz_request empty_world)))
  = Some (new_row "HealthZ" "https://example.com" 700) /\
  forall t w',
    Routing.get_segment no_files Url.ascii_host_parser zero_draws t "HealthZ" w'
    = Some (Ok (SendJson 200 JHealth), w').
Proof.
  apply (healthz_code_is_shadowed no_files Url.ascii_host_parser zero_draws 700
           healthz_request empty_world "https://example.com" "HealthZ"); reflexivity.
Defined.

(** ** The dashboard and the list *)

Lemma insert_desc_front r l :
  Forall (fun y => created_at y <= created_at r) l -> insert_desc r l = r :: l.
Proof.
  destruct l as [|x l]; [reflexivity|]. intros H. apply Forall_inv in H.
  simpl. destruct (Z.leb_spec (created_at x) (created_at r)); [reflexivity | lia].
Qed.

Lemma filter_insert_desc (f : Row -> bool) r l :
  newest_first l ->
  filter f (insert_desc r l) = if f r then insert_desc r (filter f l) else filter f l.
Proof.
  unfold newest_first. induction l as [|x l IH]; intros S.
  - simpl. destruct (f r); reflexivity.
  - apply StronglySorted_inv in S as [S F]. cbn [insert_desc].
    destruct (Z.leb_spec (created_at x) (created_at r)) as [L|G].
    + cbn [filter]. destruct (f r) eqn:Fr; [|reflexivity].
      symmetry. apply insert_desc_front.
      assert (A : Forall (fun y => created_at y <= created_at r) (x :: l)).
      { constructor; [exact L|]. eapply Forall_impl; [|exact F]. simpl. intros y Hy. lia. }
      apply (Forall_rows_filter _ f _ A).
    + cbn [filter]. rewrite (IH S). destruct (f x) eqn:Fx; destruct (f r) eqn:Fr;
        try reflexivity.
      cbn [insert_desc]. destruct (Z.leb_spec (created_at x) (created_at r)); [lia|].
      reflexivity.
Qed.

Lemma order_by_filter (f : Row -> bool) t :
  order_by_created_at_desc (filter f t) = filter f (order_by_created_at_desc t).
Proof.
  induction t as [|x t IH]; [reflexivity|].
  cbn [filter]. change (order_by_created_at_desc (x :: t))
    with (insert_desc x (order_by_created_at_desc t)).
  rewrite (filter_insert_desc f x _ (order_by_sorted t)).
  destruct (f x); [|exact IH].
  change (order_by_created_at_desc (x :: filter f t))
    with (insert_desc x (order_by_created_at_desc (filter f t))).
  now rewrite IH.
Qed.

(** X17: the dashboard shows the list of GET /api/links with the rows
    that do not match taken out.  On the same table, for any query (LIKE
    characters included), the rows of the dashboard are the rows of the
    API list, in the same order, filtered by the ILIKE pattern [%q%];
    without a query, or with an empty one, they are the same rows. *)
Theorem dashboard_filters_the_list (now : Z) (req : Request) (w : World) :
  exists all,
    fst (list_links now req w) = Ok (SendJson 200 (JArray (map (project link_columns) all))) /\
    Permutation all (links w) /\
    match query_q req with
    | Some (String c q) =>
        fst (dashboard now req w)
        = Ok (RenderDashboard
                (map (project link_columns)
                   (filter (matches_like ("%" ++ String c q ++ "%")) all))
                (String c q))
    | _ =>
        fst (dashboard now req w) = Ok (RenderDashboard (map (project link_columns) all) "")
    end.
Proof.
  exists (order_by_created_at_desc (links w)).
  split; [reflexivity|]. split; [apply order_by_perm|].
  unfold dashboard, try_catch, bind, db_query.
  destruct (query_q req) as [[|c q]|]; simpl; try reflexivity.
  now rewrite order_by_filter.
Qed.

Lemma order_by_newest r t :
  Forall (fun y => created_at y < created_at r) t ->
  order_by_created_at_desc (t ++ [r])%list = r :: order_by_created_at_desc t.
Proof.
  induction t as [|x t IH]; intros H; [reflexivity|].
  apply Forall_cons_iff in H as [Hx H].
  change (order_by_created_at_desc ((x :: t) ++ [r])%list)
    with (insert_desc x (order_by_created_at_desc (t ++ [r])%list)).
  rewrite (IH H). cbn [insert_desc].
  destruct (Z.leb_spec (created_at r) (created_at x)); [lia | reflexivity].
Qed.

(** X18: a new link shows on top.  When POST /api/links succeeds under
    a free custom code at a time later than the [created_at] of every
    stored row, GET /api/links afterwards returns the new record first,
    followed by the list as it was. *)
Theorem new_link_is_listed_first (hp : string -> bool -> option string) (rnd : nat -> Q)
  (now : Z) (req : Request) (w : World) (url c : string) :
  body_url req = Some url ->
  url_ok hp req = true ->
  body_code req = Some c ->
  CODE_REGEX_test c = true ->
  row_of c (links w) = None ->
  Forall (fun y => created_at y < now) (links w) ->
  exists before,
    (forall t r, fst (list_links t r w) = Ok (SendJson 200 (JArray before))) /\
    (forall t r,
        fst (list_links t r (snd (create_link hp rnd now req w)))
        = Ok (SendJson 200
                (JArray ([(Ccode, VText c); (Ctarget_url, VText url);
                          (Ctotal_clicks, VInt 0); (Clast_clicked, VNull)] :: before)))).
Proof.
  intros Hu Hok Hc Hre Hrow Hnew.
  exists (map (project link_columns) (order_by_created_at_desc (links w))).
  split; [reflexivity|]. intros t r.
  rewrite (create_link_fresh hp rnd now req w url c Hu Hok Hc Hre Hrow).
  unfold list_links, try_catch, bind, db_query. simpl.
  rewrite (order_by_newest (new_row c url now) (links w) Hnew). reflexivity.
Qed.

Lemma new_link_is_listed_first_witness :
  exists before,
    (forall t r, fst (list_links t r (mkWorld [older_row; sample_row] [] 0))
                 = Ok (SendJson 200 (JArray before))) /\
    (forall t r,
        fst (list_links t r
               (snd (create_link Url.ascii_host_parser zero_draws 300
                       (mkRequest "" None (Some "https://example.net/") (Some "Fresh01"))
                       (mkWorld [older_row; sample_row] [] 0))))
        = Ok (SendJson 200
                (JArray ([(Ccode, VText "Fresh01"); (Ctarget_url, VText "https://example.net/");
                          (Ctotal_clicks, VInt 0); (Clast_clicked, VNull)] :: before)))).
Proof.
  apply (new_link_is_listed_first Url.ascii_host_parser zero_draws 300
           (mkRequest "" None (Some "https://example.net/") (Some "Fresh01"))
           (mkWorld [older_row; sample_row] [] 0) "https://example.net/" "Fresh01");
    try reflexivity.
  repeat constructor.
Defined.
